(** * Deployment model: status aggregation and targeting validation

    A shallow embedding of [model/deployment.go].  Go's [int] is a 64-bit
    two's-complement integer, strings are byte strings, a [map] read at an
    absent key gives the zero value, pointers that are only tested against
    [nil] and dereferenced are options. *)

From Stdlib Require Import ZArith Lia Bool List String Ascii.
From stdpp Require Import base option countable gmap strings list.

#[local] Set Warnings "-register-all".

Local Open Scope string_scope.
Local Open Scope Z_scope.

(** ** Go's [int] *)

Module GoInt.

(** [int] is 64 bits wide on the 64-bit platforms the service is built for:
    values range over [-2^63, 2^63 - 1]. *)
Definition modulus : Z := 18446744073709551616.
Definition min_int : Z := -9223372036854775808.
Definition max_int : Z := 9223372036854775807.

(** The value an arithmetic result is reduced to (two's complement). *)
Definition wrap (z : Z) : Z := (z - min_int) mod modulus + min_int.

Definition in_range (z : Z) : Prop := min_int <= z <= max_int.

(** [a + b] on [int]. *)
Definition add (a b : Z) : Z := wrap (a + b).

End GoInt.

(** ** Status vocabulary *)

Definition DeploymentStatus := string.
Definition DeploymentType := string.

Definition DeploymentStatusFinished : DeploymentStatus := "finished".
Definition DeploymentStatusInProgress : DeploymentStatus := "inprogress".
Definition DeploymentStatusPending : DeploymentStatus := "pending".

Definition DeploymentTypeSoftware : DeploymentType := "software".
Definition DeploymentTypeConfiguration : DeploymentType := "configuration".

(** Modelled from the spec: the [DeviceDeploymentStatus*] constants that key
    the counters are declared outside [deployment.go]; the data model lists
    thirteen pairwise distinct device-level statuses. *)
Inductive DeviceDeploymentStatus :=
  | DeviceDeploymentStatusDownloading
  | DeviceDeploymentStatusInstalling
  | DeviceDeploymentStatusRebooting
  | DeviceDeploymentStatusSuccess
  | DeviceDeploymentStatusAlreadyInst
  | DeviceDeploymentStatusFailure
  | DeviceDeploymentStatusAborted
  | DeviceDeploymentStatusNoArtifact
  | DeviceDeploymentStatusDecommissioned
  | DeviceDeploymentStatusPauseBeforeInstall
  | DeviceDeploymentStatusPauseBeforeCommit
  | DeviceDeploymentStatusPauseBeforeReboot
  | DeviceDeploymentStatusPending.

#[global] Instance DeviceDeploymentStatus_eq_dec : EqDecision DeviceDeploymentStatus.
Proof. solve_decision. Defined.

Definition status_index (s : DeviceDeploymentStatus) : nat :=
  match s with
  | DeviceDeploymentStatusDownloading => 0
  | DeviceDeploymentStatusInstalling => 1
  | DeviceDeploymentStatusRebooting => 2
  | DeviceDeploymentStatusSuccess => 3
  | DeviceDeploymentStatusAlreadyInst => 4
  | DeviceDeploymentStatusFailure => 5
  | DeviceDeploymentStatusAborted => 6
  | DeviceDeploymentStatusNoArtifact => 7
  | DeviceDeploymentStatusDecommissioned => 8
  | DeviceDeploymentStatusPauseBeforeInstall => 9
  | DeviceDeploymentStatusPauseBeforeCommit => 10
  | DeviceDeploymentStatusPauseBeforeReboot => 11
  | DeviceDeploymentStatusPending => 12
  end%nat.

Definition all_statuses : list DeviceDeploymentStatus :=
  [ DeviceDeploymentStatusDownloading; DeviceDeploymentStatusInstalling;
    DeviceDeploymentStatusRebooting; DeviceDeploymentStatusSuccess;
    DeviceDeploymentStatusAlreadyInst; DeviceDeploymentStatusFailure;
    DeviceDeploymentStatusAborted; DeviceDeploymentStatusNoArtifact;
    DeviceDeploymentStatusDecommissioned;
    DeviceDeploymentStatusPauseBeforeInstall;
    DeviceDeploymentStatusPauseBeforeCommit;
    DeviceDeploymentStatusPauseBeforeReboot; DeviceDeploymentStatusPending ].

Definition status_of_index (n : nat) : DeviceDeploymentStatus :=
  nth n all_statuses DeviceDeploymentStatusPending.

#[global] Instance DeviceDeploymentStatus_countable : Countable DeviceDeploymentStatus.
Proof. by apply (inj_countable' status_index status_of_index); intros []. Defined.

(** Modelled from the spec: the [Stats] type is declared outside
    [deployment.go]; it maps a device status to a count, and the code reads
    it as a Go map with [int] values. *)
Abbreviation StatsT := (gmap DeviceDeploymentStatus Z).

(** [m[k]] on a Go map: the stored value, or zero when the key is absent. *)
Definition stat (m : StatsT) (k : DeviceDeploymentStatus) : Z :=
  default 0 (m !! k).

(** ** The validation rules used by the model

    [deployment.go] validates through the go-ozzo/ozzo-validation/v4 package.
    The rules it uses are embedded here as functions from a value to an
    optional error.  Every rule except [Required] accepts the empty value. *)

Module validation.

Inductive Error :=
  | ErrRequired                          (* cannot be blank *)
  | ErrLengthOutOfRange (min max : nat)  (* the length must be between min and max *)
  | ErrInInvalid                         (* must be a valid value *)
  | ErrorsAt (errs : list (nat * Error)) (* errors of [Each], by element index *)
  | Errors (errs : list (string * Error)). (* errors of a struct, by field name *)

Definition Rule (A : Type) := A -> option Error.

(** [IsEmpty] on a string: its length is zero. *)
Definition IsEmpty (s : string) : bool := Nat.eqb (String.length s) 0.

Definition Required : Rule string :=
  fun s => if IsEmpty s then Some ErrRequired else None.

Definition Length (min max : nat) : Rule string :=
  fun s =>
    if IsEmpty s then None
    else
      let l := String.length s in
      if (Nat.ltb 0 min && Nat.ltb l min)
         || (Nat.ltb 0 max && Nat.ltb max l)
         || (Nat.eqb min 0 && Nat.eqb max 0 && Nat.ltb 0 l)
      then Some (ErrLengthOutOfRange min max)
      else None.

Definition In (elements : list string) : Rule string :=
  fun v =>
    if IsEmpty v then None
    else if existsb (String.eqb v) elements then None
    else Some ErrInInvalid.

(** [Validate(value, rules...)]: the rules in order, stopping at the first
    error. *)
Fixpoint Validate {A : Type} (value : A) (rules : list (Rule A)) : option Error :=
  match rules with
  | [] => None
  | r :: rs =>
      match r value with
      | Some e => Some e
      | None => Validate value rs
      end
  end.

Fixpoint each_from {A : Type} (rules : list (Rule A)) (i : nat) (l : list A)
  : list (nat * Error) :=
  match l with
  | [] => []
  | x :: xs =>
      match Validate x rules with
      | Some e => (i, e) :: each_from rules (S i) xs
      | None => each_from rules (S i) xs
      end
  end.

Definition Each {A : Type} (rules : list (Rule A)) : Rule (list A) :=
  fun l =>
    match each_from rules 0 l with
    | [] => None
    | errs => Some (ErrorsAt errs)
    end.

(** [Field(&x, rules...)]: the field's error name and the outcome of its
    rules on the current value. *)
Definition Field {A : Type} (name : string) (value : A) (rules : list (Rule A))
  : string * option Error :=
  (name, Validate value rules).

Fixpoint field_errors (fields : list (string * option Error))
  : list (string * Error) :=
  match fields with
  | [] => []
  | (n, Some e) :: fs => (n, e) :: field_errors fs
  | (_, None) :: fs => field_errors fs
  end.

Definition ValidateStruct (fields : list (string * option Error)) : option Error :=
  match field_errors fields with
  | [] => None
  | errs => Some (Errors errs)
  end.

End validation.

(** Go's [error] values returned by the model: the package's sentinel errors
    and the errors of the validation rules; [nil] is [None]. *)
Inductive error :=
  | ErrInvalidDeviceID
  | ErrInvalidDeploymentDefinition
  | ErrInvalidDeploymentDefinitionNoDevices
  | ErrInvalidDeploymentDefinitionConflict
  | ErrInvalidDeploymentToGroupDefinitionConflict
  | ValidationError (e : validation.Error)
  | Wrap (err : error) (message : string).

Definition DeploymentStatus_Validate (stat : DeploymentStatus) : option error :=
  ValidationError <$>
    validation.In
      [DeploymentStatusFinished; DeploymentStatusInProgress; DeploymentStatusPending]
      stat.

Definition DeploymentType_Validate (typ : DeploymentType) : option error :=
  ValidationError <$>
    validation.In [DeploymentTypeSoftware; DeploymentTypeConfiguration] typ.

(** ** Deployment constructor and its validation *)

Record DeploymentConstructor := {
  Name : string;
  ArtifactName : string;
  Devices : list string;
  AllDevices : bool;
  Group : string
}.

(** Modelled from the spec: [lengthIn1To4096] is declared outside
    [deployment.go]; the name and the artifact name must have a length in
    [1, 4096]. *)
Definition lengthIn1To4096 : validation.Rule string := validation.Length 1 4096.

Definition DeploymentConstructor_Validate (c : DeploymentConstructor) : option error :=
  ValidationError <$>
    validation.ValidateStruct
      [ validation.Field "name" (Name c) [validation.Required; lengthIn1To4096];
        validation.Field "artifact_name" (ArtifactName c)
          [validation.Required; lengthIn1To4096];
        validation.Field "devices" (Devices c)
          [validation.Each [validation.Required]] ].

Definition DeploymentConstructor_ValidateNew (c : DeploymentConstructor) : option error :=
  match DeploymentConstructor_Validate c with
  | Some err => Some err
  | None =>
      if Nat.eqb (String.length (Group c)) 0 then
        if Nat.eqb (List.length (Devices c)) 0 && negb (AllDevices c) then
          Some ErrInvalidDeploymentDefinitionNoDevices
        else if Nat.ltb 0 (List.length (Devices c)) && AllDevices c then
          Some ErrInvalidDeploymentDefinitionConflict
        else None
      else
        if Nat.ltb 0 (List.length (Devices c)) || AllDevices c then
          Some ErrInvalidDeploymentToGroupDefinitionConflict
        else None
  end.

(** ** JSON values

    The output of [encoding/json], as a tree: an object is the list of its
    members in the order they are written.  A [[]byte] is written as the
    base64 text of its bytes.  A string member holds the Go string it is
    written from: the encoder escapes it and replaces bytes that are not
    valid UTF-8 by U+FFFD in the text it writes, which the tree does not
    show. *)

Inductive JSON :=
  | JNull
  | JBool (b : bool)
  | JNumber (n : Z)
  | JString (s : string)
  | JBase64 (bytes : list Byte.byte)
  | JArray (items : list JSON)
  | JObject (members : list (string * JSON)).

(** The first member of that name. *)
Fixpoint member (key : string) (members : list (string * JSON)) : option JSON :=
  match members with
  | [] => None
  | (k, v) :: rest => if String.eqb key k then Some v else member key rest
  end.

Definition keys (members : list (string * JSON)) : list string := map fst members.

(** ** Deployment *)

(** [p != nil] for a pointer. *)
Definition not_nil {A : Type} (p : option A) : bool :=
  match p with
  | Some _ => true
  | None => false
  end.

Section Deployment.

(** [time.Time] and its JSON text, which the [time] package refuses for
    years outside [0, 9999]. *)
Variable Time : Type.
Variable time_MarshalJSON : Time -> option string.

(** The [DeploymentConstructor] pointer is the embedded [Constructor]
    field; [Type] is [Type_]. *)
Record Deployment := {
  Constructor : option DeploymentConstructor;
  Created : option Time;
  Finished : option Time;
  Id : string;
  Artifacts : list string;
  Stats : StatsT;
  Status : DeploymentStatus;
  DeviceCount : option Z;
  MaxDevices : Z;
  DeviceList : list string;
  Type_ : DeploymentType;
  Configuration : list Byte.byte
}.

Definition IsNotPending (d : Deployment) : bool :=
  if (0 <? stat (Stats d) DeviceDeploymentStatusDownloading)
     || (0 <? stat (Stats d) DeviceDeploymentStatusInstalling)
     || (0 <? stat (Stats d) DeviceDeploymentStatusRebooting)
     || (0 <? stat (Stats d) DeviceDeploymentStatusSuccess)
     || (0 <? stat (Stats d) DeviceDeploymentStatusAlreadyInst)
     || (0 <? stat (Stats d) DeviceDeploymentStatusFailure)
     || (0 <? stat (Stats d) DeviceDeploymentStatusAborted)
     || (0 <? stat (Stats d) DeviceDeploymentStatusNoArtifact)
     || (0 <? stat (Stats d) DeviceDeploymentStatusPauseBeforeInstall)
     || (0 <? stat (Stats d) DeviceDeploymentStatusPauseBeforeCommit)
     || (0 <? stat (Stats d) DeviceDeploymentStatusPauseBeforeReboot)
  then true
  else false.

(** The sum of the six terminal counters, as [IsFinished] adds them: left
    to right, on [int]. *)
Definition terminal_sum (d : Deployment) : Z :=
  GoInt.add
    (GoInt.add
       (GoInt.add
          (GoInt.add
             (GoInt.add (stat (Stats d) DeviceDeploymentStatusAlreadyInst)
                        (stat (Stats d) DeviceDeploymentStatusSuccess))
             (stat (Stats d) DeviceDeploymentStatusFailure))
          (stat (Stats d) DeviceDeploymentStatusNoArtifact))
       (stat (Stats d) DeviceDeploymentStatusDecommissioned))
    (stat (Stats d) DeviceDeploymentStatusAborted).

Definition IsFinished (d : Deployment) : bool :=
  if not_nil (Finished d)
     || (0 <? MaxDevices d) && (MaxDevices d <=? terminal_sum d)
  then true
  else false.

Definition GetStatus (d : Deployment) : DeploymentStatus :=
  if IsFinished d then DeploymentStatusFinished
  else if IsNotPending d then DeploymentStatusInProgress
  else DeploymentStatusPending.

(** *** External representation *)

Definition omitempty_string (name s : string) : list (string * JSON) :=
  if Nat.eqb (String.length s) 0 then [] else [(name, JString s)].

Definition omitempty_strings (name : string) (l : list string)
  : list (string * JSON) :=
  if Nat.eqb (List.length l) 0 then [] else [(name, JArray (map JString l))].

(** The members promoted from the embedded constructor pointer: none when
    it is [nil]; [devices] is shadowed by the shallower [Devices] of the
    marshalled struct and [Group] is tagged ["-"]. *)
Definition constructor_members (c : option DeploymentConstructor)
  : list (string * JSON) :=
  match c with
  | None => []
  | Some c =>
      omitempty_string "name" (Name c)
      ++ omitempty_string "artifact_name" (ArtifactName c)
      ++ (if AllDevices c then [("all_devices", JBool true)] else [])
  end.

Definition time_member (t : Time) : option JSON :=
  JString <$> time_MarshalJSON t.

Definition MarshalJSON (d : Deployment) : option JSON :=
  let slim_Devices : list string := [] in
  let slim_Type : DeploymentType :=
    if String.eqb (Type_ d) "" then DeploymentTypeSoftware else Type_ d in
  created ← match Created d with
            | None => Some JNull
            | Some t => time_member t
            end;
  finished ← match Finished d with
             | None => Some []
             | Some t => (fun j => [("finished", j)]) <$> time_member t
             end;
  Some (JObject
          (constructor_members (Constructor d)
           ++ [("created", created)]
           ++ finished
           ++ [("id", JString (Id d))]
           ++ omitempty_strings "artifacts" (Artifacts d)
           ++ [("status", JString (Status d))]
           ++ [("device_count",
                match DeviceCount d with
                | None => JNull
                | Some n => JNumber n
                end)]
           ++ (if MaxDevices d =? 0 then [] else [("max_devices", JNumber (MaxDevices d))])
           ++ (if Nat.eqb (List.length (Configuration d)) 0 then []
               else [("configuration", JBase64 (Configuration d))])
           ++ omitempty_strings "devices" slim_Devices
           ++ omitempty_string "type" slim_Type)).

(** *** Creation

    [time.Now] and [uuid.NewV4] read the clock and the random source; the
    state they read and advance is threaded as [World]. *)
Variable World : Type.
Variable time_Now : World -> Time * World.
Variable UUID : Type.
Variable uuid_NewV4 : World -> UUID * World.
Variable uuid_String : UUID -> string.

(** Modelled from the spec: [NewDeviceDeploymentStats] is declared outside
    [deployment.go]; a new deployment's counters are all zero, one per
    device status. *)
Definition NewDeviceDeploymentStats : StatsT :=
  list_to_map ((fun s => (s, 0)) <$> all_statuses).

Definition NewDeployment (w : World) : (Deployment + error) * World :=
  let (now, w1) := time_Now w in
  let (uid, w2) := uuid_NewV4 w1 in
  let id := uuid_String uid in
  (inl {| Constructor :=
            Some {| Name := ""; ArtifactName := ""; Devices := [];
                    AllDevices := false; Group := "" |};
          Created := Some now;
          Finished := None;
          Id := id;
          Artifacts := [];
          Stats := NewDeviceDeploymentStats;
          Status := "";
          DeviceCount := None;
          MaxDevices := 0;
          DeviceList := [];
          Type_ := "";
          Configuration := [] |},
   w2).

Definition NewDeploymentFromConstructor
    (constructor : option DeploymentConstructor) (w : World)
  : (Deployment + error) * World :=
  let (r, w') := NewDeployment w in
  match r with
  | inr err => (inr (Wrap err "failed to create deployment from constructor"), w')
  | inl deployment =>
      let deviceCount := 0 in
      (inl {| Constructor := constructor;
              Created := Created deployment;
              Finished := Finished deployment;
              Id := Id deployment;
              Artifacts := Artifacts deployment;
              Stats := Stats deployment;
              Status := DeploymentStatusPending;
              DeviceCount := Some deviceCount;
              MaxDevices := MaxDevices deployment;
              DeviceList := DeviceList deployment;
              Type_ := Type_ deployment;
              Configuration := Configuration deployment |},
       w')
  end.

End Deployment.

Arguments Constructor {Time} _.
Arguments Created {Time} _.
Arguments Finished {Time} _.
Arguments Id {Time} _.
Arguments Artifacts {Time} _.
Arguments Stats {Time} _.
Arguments Status {Time} _.
Arguments DeviceCount {Time} _.
Arguments MaxDevices {Time} _.
Arguments DeviceList {Time} _.
Arguments Type_ {Time} _.
Arguments Configuration {Time} _.
Arguments IsNotPending {Time} _.
Arguments terminal_sum {Time} _.
Arguments IsFinished {Time} _.
Arguments GetStatus {Time} _.
Arguments MarshalJSON {Time} _ _.
Arguments NewDeployment {Time World} _ {UUID} _ _ _.
Arguments NewDeploymentFromConstructor {Time World} _ {UUID} _ _ _ _.

(** ** The validators as method calls on memory

    [Validate] and [ValidateNew] have value receivers: a call copies the
    constructor struct into a variable of the callee.  The copy is shallow:
    [Devices] is a slice header, and the copy refers to the same backing
    array as the caller's variable.  The body reads the copy, the
    validation package through the pointers [&c], [&c.Name], ..., and [Each]
    element by element through the slice.

    Memory holds the variables of struct type and the arrays of strings.
    Strings are immutable values.  A computation fails on an address that
    holds nothing and on an index out of range. *)

Module Mem.

(** A slice header: the backing array, the position of the first element in
    it, and the length.  The capacity is never read by the code.  The nil
    slice has length 0. *)
Record slice := {
  s_array : positive;
  s_offset : nat;
  s_len : nat
}.

(** A [DeploymentConstructor] as it lies in a variable. *)
Record constructor_struct := {
  f_Name : string;
  f_ArtifactName : string;
  f_Devices : slice;
  f_AllDevices : bool;
  f_Group : string
}.

Record heap := {
  vars : gmap positive constructor_struct;
  arrays : gmap positive (list string)
}.

Definition M (A : Type) : Type := heap -> option (A * heap).

Definition ret {A : Type} (a : A) : M A := fun h => Some (a, h).

Definition bind {A B : Type} (m : M A) (k : A -> M B) : M B :=
  fun h =>
    match m h with
    | None => None
    | Some (a, h') => k a h'
    end.

Notation "'let*' x ':=' m 'in' k" := (bind m (fun x => k))
  (at level 10, x name, m at level 100, k at level 200).

(** Reading the variable at [p]. *)
Definition load (p : positive) : M constructor_struct :=
  fun h =>
    match vars h !! p with
    | Some c => Some (c, h)
    | None => None
    end.

(** A new variable initialised with a copy of the struct [c], at an address
    not in use.  The slice header is copied, the array is not. *)
Definition alloc (c : constructor_struct) : M positive :=
  fun h =>
    let p := fresh (dom (vars h)) in
    Some (p, {| vars := <[p := c]> (vars h); arrays := arrays h |}).

(** [c.f] for the variable [c] at [p]. *)
Definition field {A : Type} (f : constructor_struct -> A) (p : positive) : M A :=
  let* c := load p in ret (f c).

(** [s[i]]. *)
Definition index (s : slice) (i : nat) : M string :=
  fun h =>
    if Nat.ltb i (s_len s) then
      match arrays h !! s_array s with
      | Some arr =>
          match arr !! (s_offset s + i)%nat with
          | Some x => Some (x, h)
          | None => None
          end
      | None => None
      end
    else None.

(** [s[i] = x]. *)
Definition store_index (s : slice) (i : nat) (x : string) : M unit :=
  fun h =>
    if Nat.ltb i (s_len s) then
      match arrays h !! s_array s with
      | Some arr =>
          if Nat.ltb (s_offset s + i) (List.length arr) then
            Some (tt, {| vars := vars h;
                         arrays := <[s_array s := <[(s_offset s + i)%nat := x]> arr]>
                                     (arrays h) |})
          else None
      | None => None
      end
    else None.

(** The elements [s[i]], ..., [s[i + n - 1]], read in order: the loop of
    [Each] over the slice. *)
Fixpoint elements_from (s : slice) (i n : nat) : M (list string) :=
  match n with
  | O => ret []
  | S n' =>
      let* x := index s i in
      let* rest := elements_from s (S i) n' in
      ret (x :: rest)
  end.

Definition elements (s : slice) : M (list string) := elements_from s 0 (s_len s).

(** [self.Validate()]. *)
Definition Validate (self : positive) : M (option error) :=
  let* arg := load self in
  let* c := alloc arg in
  let* name := field f_Name c in
  let* artifactName := field f_ArtifactName c in
  let* d := field f_Devices c in
  let* devices := elements d in
  ret (ValidationError <$>
         validation.ValidateStruct
           [ validation.Field "name" name [validation.Required; lengthIn1To4096];
             validation.Field "artifact_name" artifactName
               [validation.Required; lengthIn1To4096];
             validation.Field "devices" devices
               [validation.Each [validation.Required]] ]).

(** [self.ValidateNew()]; [len(c.Devices)] is the length in the slice
    header. *)
Definition ValidateNew (self : positive) : M (option error) :=
  let* arg := load self in
  let* c := alloc arg in
  let* err := Validate c in
  match err with
  | Some err => ret (Some err)
  | None =>
      let* group := field f_Group c in
      let* devices := field f_Devices c in
      let* allDevices := field f_AllDevices c in
      if Nat.eqb (String.length group) 0 then
        if Nat.eqb (s_len devices) 0 && negb allDevices then
          ret (Some ErrInvalidDeploymentDefinitionNoDevices)
        else if Nat.ltb 0 (s_len devices) && allDevices then
          ret (Some ErrInvalidDeploymentDefinitionConflict)
        else ret None
      else
        if Nat.ltb 0 (s_len devices) || allDevices then
          ret (Some ErrInvalidDeploymentToGroupDefinitionConflict)
        else ret None
  end.

(** The slice lies within its backing array (for the nil slice, which has
    no array, within the empty one). *)
Definition slice_ok (h : heap) (s : slice) : Prop :=
  (s_offset s + s_len s <= List.length (default [] (arrays h !! s_array s)))%nat.

(** The elements of a slice, and the constructor value a variable holds. *)
Definition contents (h : heap) (s : slice) : list string :=
  take (s_len s) (drop (s_offset s) (default [] (arrays h !! s_array s))).

Definition value_of (h : heap) (c : constructor_struct) : DeploymentConstructor :=
  {| Name := f_Name c;
     ArtifactName := f_ArtifactName c;
     Devices := contents h (f_Devices c);
     AllDevices := f_AllDevices c;
     Group := f_Group c |}.

End Mem.

(** ** Validation of a deployment

    [Deployment.Validate] goes through the same validation package.  A
    field error is an error of the rules above, the error of [NotNil] or of
    [is.UUID], or any other error a nested [Validate] method returns.  The
    errors of a struct are a map from field name to error. *)

Inductive FieldError :=
  | RuleError (e : validation.Error)
  | ErrNotNilRequired                  (* is required *)
  | ErrUUID                            (* must be a valid UUID *)
  | NestedError (e : error).

(** [errs[name] = err] when the rules of a field gave an error. *)
Definition record_error (name : string) (r : option FieldError)
    (errs : gmap string FieldError) : gmap string FieldError :=
  match r with
  | Some e => <[name := e]> errs
  | None => errs
  end.

(** The errors of an embedded struct are merged into those of the
    enclosing one, name by name. *)
Definition merge_errors (es : list (string * validation.Error))
    (errs : gmap string FieldError) : gmap string FieldError :=
  foldl (fun m ne => <[fst ne := RuleError (snd ne)]> m) errs es.

Section DeploymentValidate.

(** [Time.IsZero] and the check behind [is.UUID] are those of the [time] and
    [govalidator] packages. *)
Variable Time : Type.
Variable time_IsZero : Time -> bool.
Variable govalidator_IsUUID : string -> bool.

Definition NotNil {A : Type} (p : option A) : option FieldError :=
  match p with
  | None => Some ErrNotNilRequired
  | Some _ => None
  end.

(** [Required] on a [*time.Time]: a nil pointer and the zero time are both
    empty. *)
Definition Required_time (p : option Time) : option FieldError :=
  match p with
  | None => Some (RuleError validation.ErrRequired)
  | Some t =>
      if time_IsZero t then Some (RuleError validation.ErrRequired) else None
  end.

Definition is_UUID (s : string) : option FieldError :=
  if validation.IsEmpty s then None
  else if govalidator_IsUUID s then None
  else Some ErrUUID.

(** The rules of the embedded constructor pointer: [NotNil], then the
    [Validate] method of the value it points to.  The field is anonymous, so
    a map of errors is merged; any other error is stored under the field's
    name. *)
Definition validate_constructor (p : option DeploymentConstructor)
    (errs : gmap string FieldError) : gmap string FieldError :=
  match NotNil p with
  | Some e => <["DeploymentConstructor" := e]> errs
  | None =>
      match p with
      | None => errs
      | Some c =>
          match DeploymentConstructor_Validate c with
          | None => errs
          | Some (ValidationError (validation.Errors es)) => merge_errors es errs
          | Some err => <["DeploymentConstructor" := NestedError err]> errs
          end
      end
  end.

Definition Deployment_Validate (d : Deployment Time)
  : option (gmap string FieldError) :=
  let errs := validate_constructor (Constructor d) ∅ in
  let errs := record_error "created" (Required_time (Created d)) errs in
  let errs :=
    record_error "id"
      (match RuleError <$> validation.Required (Id d) with
       | Some e => Some e
       | None => is_UUID (Id d)
       end) errs in
  let errs :=
    record_error "artifacts"
      (RuleError <$> validation.Each [validation.Required] (Artifacts d)) errs in
  let errs :=
    record_error "DeviceList"
      (RuleError <$> validation.Each [validation.Required] (DeviceList d)) errs in
  if decide (errs = ∅) then None else Some errs.

End DeploymentValidate.

Arguments Deployment_Validate {Time} _ _ _.

(** ** Azure blob storage client

    A shallow embedding of [storage/azblob/azblob.go].  The Azure SDK, the
    clock and [net/url] are an interface: calls that reach the storage
    service or read the clock take the state of the world and return the new
    one; the others are functions. *)

Module azblob.

Definition headerBlobType : string := "x-ms-blob-type".
Definition headerMSContentDisposition : string := "x-ms-blob-content-disposition".
Definition blobTypeBlock : string := "BlockBlob".

(** [http.MethodGet], [http.MethodPut], [http.MethodDelete]. *)
Definition MethodGet : string := "GET".
Definition MethodPut : string := "PUT".
Definition MethodDelete : string := "DELETE".

(** Modelled from the spec: [OpError], its operation tags and
    [storage.ErrObjectNotFound] are declared outside [azblob.go].  An
    operation error carries the fields the code sets (operation, message,
    reason); not-found is a condition of its own, distinct from the errors
    of the SDK. *)
Inductive Op :=
  | OpHealthCheck | OpPutObject | OpDeleteObject | OpStatObject
  | OpGetRequest | OpDeleteRequest | OpPutRequest.

Inductive error (E : Type) :=
  | External (e : E)
  | ErrObjectNotFound
  | OpError (op : Op) (message : string) (reason : error E).

Arguments External {E} _.
Arguments ErrObjectNotFound {E}.
Arguments OpError {E} _ _ _.

(** [azblob.BlobSASPermissions], with the permissions the code sets; the
    others stay false. *)
Record BlobSASPermissions := {
  Read : bool;
  Create : bool;
  Write : bool;
  Delete : bool
}.

(** [azblob.UploadStreamOptions] with its [HTTPHeaders], as far as the code
    fills them. *)
Record UploadStreamOptions := {
  BlobContentType : option string;
  BlobContentDisposition : option string;
  BufferSize : Z
}.

(** [url.Values]: a map from key to the list of its values. *)
Abbreviation Values := (gmap string (list string)).

(** [v.Add(key, value)]. *)
Definition Values_Add (key value : string) (v : Values) : Values :=
  <[key := (default [] (v !! key) ++ [value])%list]> v.

Class SDK := {
  World : Type;
  ExtError : Type;
  Time : Type;
  Duration : Type;
  ContainerClient : Type;
  BlobClient : Type;
  BlockBlobClient : Type;
  SASQueryParameters : Type;
  Reader : Type;
  URL : Type;
  (** [errors.As(err, &storageErr)], then [storageErr.ErrorCode]. *)
  StorageErrorCode : ExtError -> option string;
  StorageErrorCodeBlobNotFound : string;
  (** The SDK clients. *)
  container_GetProperties : ContainerClient -> World -> option ExtError * World;
  NewBlockBlobClient : ContainerClient -> string -> BlockBlobClient + ExtError;
  NewBlobClient : ContainerClient -> string -> BlobClient + ExtError;
  UploadStream :
    BlockBlobClient -> Reader -> UploadStreamOptions -> World
    -> option ExtError * World;
  (** [bc.Delete], snapshots included. *)
  blob_Delete : BlockBlobClient -> World -> option ExtError * World;
  (** [bc.GetProperties]: the response (last modification time and content
      length) and the error. *)
  blob_GetProperties :
    BlockBlobClient -> World
    -> ((option Time * option Z) * option ExtError) * World;
  GetSASToken :
    BlobClient -> BlobSASPermissions -> Time -> Time
    -> SASQueryParameters + ExtError;
  blob_URL : BlobClient -> string;
  SAS_Encode : SASQueryParameters -> string;
  (** [time]. *)
  time_Now : World -> Time * World;
  time_UTC : Time -> Time;
  time_Add : Time -> Duration -> Time;
  (** [net/url]: [u.Query()] parses [u.RawQuery] and drops malformed pairs. *)
  url_Parse : string -> URL + ExtError;
  url_ParseQuery : string -> Values + ExtError;
  URL_Query : URL -> Values;
  Values_Encode : Values -> string;
  URL_set_RawQuery : URL -> string -> URL;
  URL_String : URL -> string
}.

(** Modelled from the spec: [storage.ObjectInfo] and [model.Link] are
    declared outside [azblob.go]: what [stat] reports about an object, and
    the pre-signed request descriptor (URI, expiry, HTTP method, required
    headers). *)
Record ObjectInfo {sdk : SDK} := {
  Path : string;
  LastModified : option Time;
  Size : option Z
}.

Record Link {sdk : SDK} := {
  Uri : string;
  Expire : Time;
  Method : string;
  Header : option (gmap string string)
}.

(** [path.Base]: the last element of a slash-separated path, trailing
    slashes removed; ["."] for the empty path and ["/"] for a path of
    slashes only. *)
Definition slash : ascii := "/"%char.

Fixpoint strip_slashes (rev_path : list ascii) : list ascii :=
  match rev_path with
  | c :: rest => if Ascii.eqb c slash then strip_slashes rest else rev_path
  | [] => []
  end.

Fixpoint until_slash (rev_path : list ascii) : list ascii :=
  match rev_path with
  | c :: rest => if Ascii.eqb c slash then [] else c :: until_slash rest
  | [] => []
  end.

Definition path_Base (path : string) : string :=
  if Nat.eqb (String.length path) 0 then "."
  else
    let last := rev (until_slash (strip_slashes (rev (list_ascii_of_string path)))) in
    if Nat.eqb (List.length last) 0 then "/"
    else string_of_list_ascii last.

(** [fmt.Sprintf(`attachment; filename="%s"`, filename)]. *)
Definition attachment (filename : string) : string :=
  "attachment; filename=" ++ String (ascii_of_nat 34) filename
  ++ String (ascii_of_nat 34) EmptyString.

Section Client.

Context {sdk : SDK}.

Record client := {
  container : ContainerClient;
  fileSuffix : option string;
  contentType : option string;
  bufferSize : Z
}.

(** A storage error whose code is blob-not-found becomes the not-found
    condition; any other error is kept. *)
Definition normalize (err : option ExtError) : option (error ExtError) :=
  match err with
  | None => None
  | Some e =>
      match StorageErrorCode e with
      | Some code =>
          if String.eqb code StorageErrorCodeBlobNotFound
          then Some ErrObjectNotFound
          else Some (External e)
      | None => Some (External e)
      end
  end.

Definition HealthCheck (c : client) (w : World)
  : option (error ExtError) * World :=
  let (err, w') := container_GetProperties (container c) w in
  match err with
  | Some e => (Some (OpError OpHealthCheck "" (External e)), w')
  | None => (None, w')
  end.

Definition PutObject (c : client) (objectPath : string) (src : Reader) (w : World)
  : option (error ExtError) * World :=
  match NewBlockBlobClient (container c) objectPath with
  | inr err =>
      (Some (OpError OpPutObject "failed to initialize blob client" (External err)), w)
  | inl bc =>
      let disposition :=
        match fileSuffix c with
        | Some suffix =>
            let filename := path_Base objectPath ++ suffix in
            Some (attachment filename)
        | None => None
        end in
      let blobOpts :=
        {| BlobContentType := contentType c;
           BlobContentDisposition := disposition;
           BufferSize := bufferSize c |} in
      let (err, w') := UploadStream bc src blobOpts w in
      match err with
      | Some e =>
          (Some (OpError OpPutObject "failed to upload object to blob" (External e)), w')
      | None => (None, w')
      end
  end.

Definition DeleteObject (c : client) (path : string) (w : World)
  : option (error ExtError) * World :=
  match NewBlockBlobClient (container c) path with
  | inr err =>
      (Some (OpError OpDeleteObject "failed to initialize blob client" (External err)), w)
  | inl bc =>
      let (err, w') := blob_Delete bc w in
      match normalize err with
      | Some err => (Some (OpError OpDeleteObject "failed to delete object" err), w')
      | None => (None, w')
      end
  end.

Definition StatObject (c : client) (path : string) (w : World)
  : (ObjectInfo + error ExtError) * World :=
  match NewBlockBlobClient (container c) path with
  | inr err =>
      (inr (OpError OpStatObject "failed to initialize blob client" (External err)), w)
  | inl bc =>
      let '((rsp, err), w') := blob_GetProperties bc w in
      match normalize err with
      | Some err =>
          (inr (OpError OpStatObject "failed to retrieve object properties" err), w')
      | None =>
          (inl {| Path := path; LastModified := fst rsp; Size := snd rsp |}, w')
      end
  end.

(** The loops of [buildSignedURL]: every value of every key of [qSAS] is
    added to [q]. *)
Definition add_all (qSAS q : Values) : Values :=
  map_fold (fun key values q => foldl (fun q value => Values_Add key value q) q values)
           q qSAS.

Definition buildSignedURL (blobURL : string) (SASParams : SASQueryParameters)
  : string + ExtError :=
  match url_Parse blobURL with
  | inr err => inr err
  | inl baseURL =>
      match url_ParseQuery (SAS_Encode SASParams) with
      | inr err => inr err
      | inl qSAS =>
          let q := add_all qSAS (URL_Query baseURL) in
          inl (URL_String (URL_set_RawQuery baseURL (Values_Encode q)))
      end
  end.

(** The part the three request methods share after the blob client is made:
    read the clock, ask for a token with the given permissions from now to
    now plus the duration, and sign the blob's URL. *)
Definition signed_link (op : Op) (bc : BlobClient) (perms : BlobSASPermissions)
    (duration : Duration) (method : string) (hdrs : option (gmap string string))
    (w : World) : (Link + error ExtError) * World :=
  let (t, w') := time_Now w in
  let now := time_UTC t in
  let exp := time_Add now duration in
  match GetSASToken bc perms now exp with
  | inr err => (inr (OpError op "failed to generate SAS token" (External err)), w')
  | inl qParams =>
      match buildSignedURL (blob_URL bc) qParams with
      | inr err =>
          (inr (OpError op "failed to create pre-signed URL" (External err)), w')
      | inl uri =>
          (inl {| Uri := uri; Expire := exp; Method := method; Header := hdrs |}, w')
      end
  end.

Definition GetRequest (c : client) (path : string) (duration : Duration) (w : World)
  : (Link + error ExtError) * World :=
  let (r, w1) := StatObject c path w in
  match r with
  | inr err => (inr err, w1)
  | inl _ =>
      match NewBlobClient (container c) path with
      | inr err =>
          (inr (OpError OpGetRequest "failed to initialize blob client" (External err)),
           w1)
      | inl bc =>
          signed_link OpGetRequest bc
            {| Read := true; Create := false; Write := false; Delete := false |}
            duration MethodGet None w1
      end
  end.

Definition DeleteRequest (c : client) (path : string) (duration : Duration) (w : World)
  : (Link + error ExtError) * World :=
  match NewBlobClient (container c) path with
  | inr err =>
      (inr (OpError OpDeleteRequest "failed to initialize blob client" (External err)),
       w)
  | inl bc =>
      signed_link OpDeleteRequest bc
        {| Read := false; Create := false; Write := false; Delete := true |}
        duration MethodDelete None w
  end.

(** The headers of a pre-signed upload. *)
Definition put_headers (c : client) (objectPath : string) : gmap string string :=
  let hdrs : gmap string string := {[ headerBlobType := blobTypeBlock ]} in
  match fileSuffix c with
  | Some suffix =>
      let filename := path_Base objectPath ++ suffix in
      <[headerMSContentDisposition := attachment filename]> hdrs
  | None => hdrs
  end.

Definition PutRequest (c : client) (objectPath : string) (duration : Duration)
    (w : World) : (Link + error ExtError) * World :=
  match NewBlobClient (container c) objectPath with
  | inr err =>
      (inr (OpError OpPutRequest "failed to initialize blob client" (External err)), w)
  | inl bc =>
      signed_link OpPutRequest bc
        {| Read := false; Create := true; Write := true; Delete := false |}
        duration MethodPut (Some (put_headers c objectPath)) w
  end.

End Client.

End azblob.

(** ** Notions used to state the properties, and example data *)

(** The counters [IsNotPending] reads. *)
Definition progress_statuses : list DeviceDeploymentStatus :=
  [ DeviceDeploymentStatusDownloading; DeviceDeploymentStatusInstalling;
    DeviceDeploymentStatusRebooting; DeviceDeploymentStatusSuccess;
    DeviceDeploymentStatusAlreadyInst; DeviceDeploymentStatusFailure;
    DeviceDeploymentStatusAborted; DeviceDeploymentStatusNoArtifact;
    DeviceDeploymentStatusPauseBeforeInstall;
    DeviceDeploymentStatusPauseBeforeCommit;
    DeviceDeploymentStatusPauseBeforeReboot ].

(** The six terminal counters added in the integers, and the condition under
    which the [int] additions of [IsFinished] do not wrap. *)
Definition terminal_total {Time : Type} (d : Deployment Time) : Z :=
  stat (Stats d) DeviceDeploymentStatusAlreadyInst
  + stat (Stats d) DeviceDeploymentStatusSuccess
  + stat (Stats d) DeviceDeploymentStatusFailure
  + stat (Stats d) DeviceDeploymentStatusNoArtifact
  + stat (Stats d) DeviceDeploymentStatusDecommissioned
  + stat (Stats d) DeviceDeploymentStatusAborted.

Definition no_overflow {Time : Type} (d : Deployment Time) : Prop :=
  let a := stat (Stats d) DeviceDeploymentStatusAlreadyInst in
  let s := stat (Stats d) DeviceDeploymentStatusSuccess in
  let f := stat (Stats d) DeviceDeploymentStatusFailure in
  let n := stat (Stats d) DeviceDeploymentStatusNoArtifact in
  let c := stat (Stats d) DeviceDeploymentStatusDecommissioned in
  let b := stat (Stats d) DeviceDeploymentStatusAborted in
  GoInt.in_range (a + s) /\ GoInt.in_range (a + s + f)
  /\ GoInt.in_range (a + s + f + n) /\ GoInt.in_range (a + s + f + n + c)
  /\ GoInt.in_range (a + s + f + n + c + b).

(** A deployment for two devices with the given counters, used to run the
    model on the scenarios of the specification. *)
Definition scenario (stats : StatsT) (maxDevices : Z) (finished : option Z)
  : Deployment Z :=
  {| Constructor :=
       Some {| Name := "r1"; ArtifactName := "app-v2"; Devices := ["d1"; "d2"];
               AllDevices := false; Group := "" |};
     Created := Some 1609459200;
     Finished := finished;
     Id := "0f3c1a52-6d46-4e0b-9a57-2f1c8a1d9e11";
     Artifacts := [];
     Stats := stats;
     Status := DeploymentStatusPending;
     DeviceCount := Some 2;
     MaxDevices := maxDevices;
     DeviceList := ["d1"; "d2"];
     Type_ := "";
     Configuration := [] |}.

(** The constructor of scenario A, and its variants. *)
Definition targeting (devices : list string) (allDevices : bool) (group : string)
  : DeploymentConstructor :=
  {| Name := "r1"; ArtifactName := "app-v2"; Devices := devices;
     AllDevices := allDevices; Group := group |}.

(** A deployment created for all devices, not yet stored. *)
Definition all_devices_deployment : Deployment Z :=
  {| Constructor := Some (targeting [] true "");
     Created := None;
     Finished := None;
     Id := "0f3c1a52-6d46-4e0b-9a57-2f1c8a1d9e11";
     Artifacts := [];
     Stats := ∅;
     Status := DeploymentStatusPending;
     DeviceCount := Some 0;
     MaxDevices := 0;
     DeviceList := [];
     Type_ := "";
     Configuration := [] |}.

(** Rendering of an instant for the examples (the text itself plays no role). *)
Definition example_time_text (t : Z) : option string :=
  if (0 <=? t) then Some "2021-01-01T00:00:00Z" else None.

(** A memory holding the constructor of scenario A in the variable at
    address 1, its device ids in the array at address 2. *)
Definition example_struct : Mem.constructor_struct :=
  {| Mem.f_Name := "r1"; Mem.f_ArtifactName := "app-v2";
     Mem.f_Devices := {| Mem.s_array := 2; Mem.s_offset := 0; Mem.s_len := 2 |};
     Mem.f_AllDevices := false; Mem.f_Group := EmptyString |}.

Definition example_heap : Mem.heap :=
  {| Mem.vars := {[ 1%positive := example_struct ]};
     Mem.arrays := {[ 2%positive := ["d1"; "d2"] ]} |}.

(** A clock and an identifier source for the examples: the world is the
    number of identifiers drawn so far. *)
Definition example_Now (w : nat) : Z * nat := (1609459200 + Z.of_nat w, w).
Definition example_NewV4 (w : nat) : nat * nat := (w, S w).
Definition example_uuid_String (u : nat) : string :=
  match u with
  | O => "0f3c1a52-6d46-4e0b-9a57-2f1c8a1d9e11"
  | S _ => "7b1de0c4-93a8-4c55-8f0e-5a3c2d9b6e20"
  end.

(** What [Validate] reports for a name or an artifact name [s]. *)
Definition string_field_error (s : string) (e : validation.Error) : Prop :=
  (s = "" /\ e = validation.ErrRequired)
  \/ ((4096 < String.length s)%nat /\ e = validation.ErrLengthOutOfRange 1 4096).

(** The zero time and the form of a UUID, for the examples: instants are
    seconds, the zero time is second 0, and a UUID is taken to be any text
    of 36 bytes. *)
Definition example_IsZero (t : Z) : bool := t =? 0.
Definition example_IsUUID (s : string) : bool := Nat.eqb (String.length s) 36.

(** The member names [MarshalJSON] can write, in the order it writes them. *)
Definition json_keys : list string :=
  [ "name"; "artifact_name"; "all_devices"; "created"; "finished"; "id";
    "artifacts"; "status"; "device_count"; "max_devices"; "configuration";
    "type" ].

(** The deployment [d] with other values in the fields that are not meant
    for external consumers: the counters, the resolved device list, and the
    device list and group of the constructor. *)
Definition with_hidden {Time : Type} (d : Deployment Time)
    (stats : StatsT) (deviceList devices : list string) (group : string)
  : Deployment Time :=
  {| Constructor :=
       match Constructor d with
       | None => None
       | Some c =>
           Some {| Name := Name c; ArtifactName := ArtifactName c;
                   Devices := devices; AllDevices := AllDevices c;
                   Group := group |}
       end;
     Created := Created d;
     Finished := Finished d;
     Id := Id d;
     Artifacts := Artifacts d;
     Stats := stats;
     Status := Status d;
     DeviceCount := DeviceCount d;
     MaxDevices := MaxDevices d;
     DeviceList := deviceList;
     Type_ := Type_ d;
     Configuration := Configuration d |}.

(** An error of the storage client made by one of the operations [ops]: an
    operation error whose reason is not-found or an error of the SDK. *)
Definition op_error {E : Type} (ops : list azblob.Op) (err : azblob.error E) : Prop :=
  exists op message reason,
    err = azblob.OpError op message reason
    /\ List.In op ops
    /\ (reason = azblob.ErrObjectNotFound \/ exists e, reason = azblob.External e).

(** An operation error whose reason is the not-found condition. *)
Definition reports_not_found {E : Type} (err : azblob.error E) : Prop :=
  exists op message, err = azblob.OpError op message azblob.ErrObjectNotFound.

(** A path element: a non-empty string without a slash. *)
Definition path_element (name : string) : Prop :=
  name <> "" /\ Forall (fun ch => ch <> azblob.slash) (list_ascii_of_string name).

(** An in-memory storage service, for the examples: the world is the stored
    objects (path and content length) and the clock, in seconds; an error of
    the service is its error code. *)
Definition memory_SDK : azblob.SDK :=
  {| azblob.World := gmap string Z * Z;
     azblob.ExtError := string;
     azblob.Time := Z;
     azblob.Duration := Z;
     azblob.ContainerClient := unit;
     azblob.BlobClient := string;
     azblob.BlockBlobClient := string;
     azblob.SASQueryParameters := string;
     azblob.Reader := Z;
     azblob.URL := string * string;
     azblob.StorageErrorCode := fun e => Some e;
     azblob.StorageErrorCodeBlobNotFound := "BlobNotFound";
     azblob.container_GetProperties := fun _ w => (None, w);
     azblob.NewBlockBlobClient :=
       fun _ p => if Nat.eqb (String.length p) 0 then inr "InvalidResourceName"
                  else inl p;
     azblob.NewBlobClient :=
       fun _ p => if Nat.eqb (String.length p) 0 then inr "InvalidResourceName"
                  else inl p;
     azblob.UploadStream := fun bc src _ w => (None, (<[bc := src]> (fst w), snd w));
     azblob.blob_Delete :=
       fun bc w =>
         match fst w !! bc with
         | Some _ => (None, (delete bc (fst w), snd w))
         | None => (Some "BlobNotFound", w)
         end;
     azblob.blob_GetProperties :=
       fun bc w =>
         match fst w !! bc with
         | Some n => ((Some (snd w), Some n), None, w)
         | None => ((None, None), Some "BlobNotFound", w)
         end;
     azblob.GetSASToken := fun _ _ _ _ => inl "c2lnbmF0dXJl";
     azblob.blob_URL := fun bc => "https://example.blob.core.windows.net/artifacts/" ++ bc;
     azblob.SAS_Encode := fun s => s;
     azblob.time_Now := fun w => (snd w, (fst w, snd w + 1));
     azblob.time_UTC := fun t => t;
     azblob.time_Add := fun t d => t + d;
     azblob.url_Parse := fun s => inl (s, EmptyString);
     azblob.url_ParseQuery := fun s => inl {[ "sig" := [s] ]};
     azblob.URL_Query := fun _ => ∅;
     azblob.Values_Encode := fun v => String.concat "&" (map fst (map_to_list v));
     azblob.URL_set_RawQuery := fun u q => (fst u, q);
     azblob.URL_String := fun u => fst u ++ "?" ++ snd u |}.

(** A client of that service that appends [.mender] to file names, and a
    world with one stored object. *)
Definition example_client : @azblob.client memory_SDK :=
  @azblob.Build_client memory_SDK tt (Some ".mender")
    (Some "application/vnd.mender-artifact") 0.

Definition example_world : @azblob.World memory_SDK :=
  ({[ "tenant/abc" := 1024 ]}, 1609459200).

(** The heap after a call has copied its receiver [c]. *)
Definition with_copy (h : Mem.heap) (c : Mem.constructor_struct) : Mem.heap :=
  {| Mem.vars := <[fresh (dom (Mem.vars h)) := c]> (Mem.vars h);
     Mem.arrays := Mem.arrays h |}.

(** Two devices, one decommissioned, and counters for success and failure
    that are negative and add up past the smallest [int]. *)
Definition wrapping_deployment : Deployment Z :=
  scenario {[ DeviceDeploymentStatusSuccess := GoInt.min_int;
              DeviceDeploymentStatusFailure := -2;
              DeviceDeploymentStatusDecommissioned := 1 ]} 2 None.

(** * Properties *)

(** ** Arithmetic on [int] *)

Module GoIntFacts.

Import GoInt.

Lemma wrap_in_range z : in_range (wrap z).
Proof.
unfold in_range, wrap, min_int, max_int, modulus.
pose proof (Z.mod_pos_bound (z - -9223372036854775808)
              18446744073709551616 eq_refl).
lia.
Qed.

Lemma wrap_small z : in_range z -> wrap z = z.
Proof.
unfold in_range, wrap, min_int, max_int, modulus.
intros H. rewrite Z.mod_small by lia. lia.
Qed.

Lemma add_exact a b : in_range (a + b) -> add a b = a + b.
Proof. apply wrap_small. Qed.

(** Reducing a non-negative value never makes it larger. *)
Lemma wrap_le_nonneg z : 0 <= z -> wrap z <= z.
Proof.
intros Hz. unfold wrap, min_int, modulus.
assert (Hm : (z - -9223372036854775808) mod 18446744073709551616
             <= z - -9223372036854775808) by (apply Z.mod_le; lia).
lia.
Qed.

End GoIntFacts.

(** ** Derived status *)

Section StatusProperties.

Context {Time : Type}.
Implicit Types d : Deployment Time.

Lemma status_constants_distinct :
  DeploymentStatusFinished <> DeploymentStatusInProgress
  /\ DeploymentStatusFinished <> DeploymentStatusPending
  /\ DeploymentStatusInProgress <> DeploymentStatusPending.
Proof. repeat split; discriminate. Qed.

Lemma progress_statuses_spec s :
  List.In s progress_statuses
  <-> s <> DeviceDeploymentStatusPending /\ s <> DeviceDeploymentStatusDecommissioned.
Proof.
  unfold progress_statuses. simpl. split.
  - intros H. split; intros ->; repeat destruct H as [H | H]; try discriminate H; exact H.
  - intros [Hp Hd]. destruct s; tauto.
Qed.

Lemma IsNotPending_true d :
  IsNotPending d = true
  <-> exists s, List.In s progress_statuses /\ 0 < stat (Stats d) s.
Proof.
  unfold IsNotPending. split.
  - intros H.
    destruct (_ || _) eqn:E in H; [clear H | discriminate H].
    repeat (apply orb_true_iff in E; destruct E as [E | E]);
      apply Z.ltb_lt in E;
      (eexists; split; [ | exact E ]); unfold progress_statuses; simpl; tauto.
  - intros (s & Hin & Hpos).
    apply Z.ltb_lt in Hpos.
    unfold progress_statuses in Hin. simpl in Hin.
    repeat destruct Hin as [<- | Hin]; try contradiction;
      rewrite Hpos; rewrite ?orb_true_r; reflexivity.
Qed.

Lemma IsNotPending_false d :
  IsNotPending d = false
  <-> forall s, List.In s progress_statuses -> stat (Stats d) s <= 0.
Proof.
  split.
  - intros H s Hin.
    destruct (Z_lt_le_dec 0 (stat (Stats d) s)) as [Hpos | Hle]; [ | exact Hle ].
    assert (IsNotPending d = true) by (apply IsNotPending_true; eauto).
    congruence.
  - intros H. destruct (IsNotPending d) eqn:E; [ | reflexivity ].
    apply IsNotPending_true in E. destruct E as (s & Hin & Hpos).
    specialize (H s Hin). lia.
Qed.

Lemma IsFinished_true d :
  IsFinished d = true
  <-> Finished d <> None
      \/ (0 < MaxDevices d /\ MaxDevices d <= terminal_sum d).
Proof.
  unfold IsFinished. split.
  - intros H.
    destruct (_ || _) eqn:E in H; [clear H | discriminate H].
    apply orb_true_iff in E. destruct E as [E | E].
    + left. destruct (Finished d); [ discriminate | discriminate E ].
    + right. apply andb_true_iff in E. destruct E as [E1 E2].
      apply Z.ltb_lt in E1. apply Z.leb_le in E2. auto.
  - intros [H | [H1 H2]].
    + destruct (Finished d); [ reflexivity | contradiction ].
    + apply Z.ltb_lt in H1. apply Z.leb_le in H2.
      rewrite H1, H2, orb_true_r. reflexivity.
Qed.

Lemma GetStatus_pending d :
  IsFinished d = false -> IsNotPending d = false ->
  GetStatus d = DeploymentStatusPending.
Proof. intros Hf Hn. unfold GetStatus. rewrite Hf, Hn. reflexivity. Qed.

End StatusProperties.

Lemma terminal_sum_exact {Time : Type} (d : Deployment Time) :
  no_overflow d -> terminal_sum d = terminal_total d.
Proof.
  unfold no_overflow, terminal_sum, terminal_total.
  intros (H1 & H2 & H3 & H4 & H5).
  rewrite (GoIntFacts.add_exact _ _ H1).
  rewrite (GoIntFacts.add_exact _ _ H2).
  rewrite (GoIntFacts.add_exact _ _ H3).
  rewrite (GoIntFacts.add_exact _ _ H4).
  rewrite (GoIntFacts.add_exact _ _ H5).
  reflexivity.
Qed.

(** The counters of the data model, non-negative and at most [MaxDevices]
    in total, never make the additions wrap. *)
Lemma no_overflow_of_invariant {Time : Type} (d : Deployment Time) :
  (forall s, 0 <= stat (Stats d) s) ->
  terminal_total d <= GoInt.max_int ->
  no_overflow d.
Proof.
  intros Hn Ht. unfold no_overflow, terminal_total, GoInt.in_range in *.
  pose proof (Hn DeviceDeploymentStatusAlreadyInst).
  pose proof (Hn DeviceDeploymentStatusSuccess).
  pose proof (Hn DeviceDeploymentStatusFailure).
  pose proof (Hn DeviceDeploymentStatusNoArtifact).
  pose proof (Hn DeviceDeploymentStatusDecommissioned).
  pose proof (Hn DeviceDeploymentStatusAborted).
  unfold GoInt.min_int, GoInt.max_int in *. cbv zeta. lia.
Qed.

(** C1. [GetStatus] gives precedence to finished over inprogress over
    pending: it is [finished] exactly when [IsFinished] holds, in particular
    whenever the [Finished] timestamp is set, whatever the counters are;
    otherwise [inprogress] exactly when [IsNotPending] holds; otherwise
    [pending]. *)
Theorem GetStatus_precedence {Time : Type} (d : Deployment Time) :
  (GetStatus d = DeploymentStatusFinished <-> IsFinished d = true)
  /\ (Finished d <> None -> GetStatus d = DeploymentStatusFinished)
  /\ (GetStatus d = DeploymentStatusInProgress
      <-> IsFinished d = false /\ IsNotPending d = true)
  /\ (GetStatus d = DeploymentStatusPending
      <-> IsFinished d = false /\ IsNotPending d = false).
Proof.
  assert (Hset : Finished d <> None -> IsFinished d = true)
    by (intros H; apply IsFinished_true; auto).
  unfold GetStatus, DeploymentStatusFinished, DeploymentStatusInProgress,
    DeploymentStatusPending.
  destruct (IsFinished d) eqn:Ef; [ | destruct (IsNotPending d) eqn:En ];
    intuition (discriminate || congruence).
Qed.

(** A deployment stopped explicitly while one device is still installing and
    none has reached a terminal state reads as finished. *)
Lemma GetStatus_precedence_witness :
  Finished (scenario {[ DeviceDeploymentStatusInstalling := 1 ]} 2 (Some 1609462800)) <> None
  /\ GetStatus (scenario {[ DeviceDeploymentStatusInstalling := 1 ]} 2 (Some 1609462800))
     = DeploymentStatusFinished.
Proof.
  split.
  - discriminate.
  - apply (proj1 (proj2 (GetStatus_precedence
                           (scenario {[ DeviceDeploymentStatusInstalling := 1 ]} 2
                                     (Some 1609462800))))).
    discriminate.
Defined.

(** Scenario C: two devices, one succeeded and one failed. *)
Example scenario_C :
  let d := scenario {[ DeviceDeploymentStatusSuccess := 1;
                       DeviceDeploymentStatusFailure := 1 ]} 2 None in
  IsFinished d = true /\ GetStatus d = DeploymentStatusFinished.
Proof. split; vm_compute; reflexivity. Qed.

(** Scenario D: two devices, one of them installing. *)
Example scenario_D :
  let d := scenario {[ DeviceDeploymentStatusInstalling := 1 ]} 2 None in
  IsNotPending d = true /\ IsFinished d = false
  /\ GetStatus d = DeploymentStatusInProgress.
Proof. repeat split; vm_compute; reflexivity. Qed.

(** C2. [IsFinished] holds exactly when the [Finished] timestamp is set, or
    [MaxDevices] is positive and the sum of the counters already-installed,
    success, failure, no-artifact, decommissioned and aborted reaches it.
    The sum is the one the code computes on [int]; it is the integer sum
    whenever no addition wraps.  With [MaxDevices = 0] and [Finished] unset
    the deployment is not finished, whatever the counters are. *)
Theorem IsFinished_threshold {Time : Type} (d : Deployment Time) :
  (IsFinished d = true
   <-> Finished d <> None
       \/ (0 < MaxDevices d /\ MaxDevices d <= terminal_sum d))
  /\ (no_overflow d ->
      (IsFinished d = true
       <-> Finished d <> None
           \/ (0 < MaxDevices d /\ MaxDevices d <= terminal_total d)))
  /\ (MaxDevices d = 0 -> Finished d = None -> IsFinished d = false).
Proof.
  split; [ apply IsFinished_true | split ].
  - intros Hno. rewrite <- (terminal_sum_exact d Hno). apply IsFinished_true.
  - intros Hmax Hfin.
    destruct (IsFinished d) eqn:E; [ | reflexivity ].
    apply IsFinished_true in E. destruct E as [E | [E _]].
    + contradiction.
    + lia.
Qed.

Lemma IsFinished_threshold_witness :
  no_overflow (scenario {[ DeviceDeploymentStatusSuccess := 1;
                           DeviceDeploymentStatusFailure := 1 ]} 2 None)
  /\ IsFinished (scenario {[ DeviceDeploymentStatusSuccess := 1;
                             DeviceDeploymentStatusFailure := 1 ]} 2 None) = true
  /\ IsFinished (scenario {[ DeviceDeploymentStatusSuccess := 7 ]} 0 None) = false.
Proof.
  assert (Hno : no_overflow (scenario {[ DeviceDeploymentStatusSuccess := 1;
                                         DeviceDeploymentStatusFailure := 1 ]} 2 None))
    by (vm_compute; intuition discriminate).
  split; [ exact Hno | split ].
  - apply (proj1 (proj2 (IsFinished_threshold
                           (scenario {[ DeviceDeploymentStatusSuccess := 1;
                                        DeviceDeploymentStatusFailure := 1 ]} 2 None)))
             Hno).
    right. vm_compute. split; [ reflexivity | discriminate ].
  - apply (proj2 (proj2 (IsFinished_threshold
                           (scenario {[ DeviceDeploymentStatusSuccess := 7 ]} 0 None))));
      reflexivity.
Defined.

(** Counters outside the data model: additions on [int] wrap, and a sum
    that exceeds the largest [int] reads as negative. *)
Example terminal_sum_wraps :
  let d := scenario {[ DeviceDeploymentStatusSuccess := GoInt.max_int;
                       DeviceDeploymentStatusFailure := 1 ]} 1 None in
  terminal_sum d = GoInt.min_int /\ IsFinished d = false.
Proof. split; vm_compute; reflexivity. Qed.

(** C3. [IsNotPending] holds exactly when one of the eleven counters
    downloading, installing, rebooting, success, already-installed, failure,
    aborted, no-artifact, pause-before-install, pause-before-commit,
    pause-before-reboot is positive.  The pending and decommissioned counters
    are not read: two deployments that differ only there get the same
    answer. *)
Theorem IsNotPending_counters {Time : Type} (d : Deployment Time) :
  (IsNotPending d = true
   <-> exists s, List.In s progress_statuses /\ 0 < stat (Stats d) s)
  /\ List.length progress_statuses = 11%nat
  /\ (forall s, List.In s progress_statuses
                <-> s <> DeviceDeploymentStatusPending
                    /\ s <> DeviceDeploymentStatusDecommissioned)
  /\ (forall d' : Deployment Time,
         (forall s, s <> DeviceDeploymentStatusPending ->
                    s <> DeviceDeploymentStatusDecommissioned ->
                    stat (Stats d') s = stat (Stats d) s) ->
         IsNotPending d' = IsNotPending d).
Proof.
  split; [ apply IsNotPending_true | ].
  split; [ reflexivity | ].
  split; [ apply progress_statuses_spec | ].
  intros d' Hagree.
  assert (Hin : forall s, List.In s progress_statuses ->
                          stat (Stats d') s = stat (Stats d) s).
  { intros s Hs. apply progress_statuses_spec in Hs. destruct Hs. auto. }
  destruct (IsNotPending d) eqn:E.
  - apply IsNotPending_true in E. destruct E as (s & Hs & Hpos).
    apply IsNotPending_true. exists s. split; [ exact Hs | ].
    rewrite (Hin s Hs). exact Hpos.
  - apply IsNotPending_false. intros s Hs.
    rewrite (Hin s Hs).
    apply (proj1 (IsNotPending_false d) E s Hs).
Qed.

Lemma IsNotPending_counters_witness :
  IsNotPending (scenario {[ DeviceDeploymentStatusInstalling := 1 ]} 2 None) = true
  /\ IsNotPending (scenario {[ DeviceDeploymentStatusPending := 1;
                               DeviceDeploymentStatusDecommissioned := 1 ]} 2 None)
     = IsNotPending (scenario ∅ 2 None).
Proof.
  split.
  - apply (proj1 (IsNotPending_counters
                    (scenario {[ DeviceDeploymentStatusInstalling := 1 ]} 2 None))).
    exists DeviceDeploymentStatusInstalling. split.
    + simpl. tauto.
    + vm_compute. reflexivity.
  - apply (proj2 (proj2 (proj2 (IsNotPending_counters (scenario ∅ 2 None))))).
    intros s Hp Hd. destruct s; try reflexivity; contradiction.
Defined.

(** C10, as the code has it.  With [Finished] unset, only the decommissioned
    counter possibly positive, and additions on [int] that do not wrap:
    [IsNotPending] is false, and [GetStatus] is [pending] as long as
    [MaxDevices] is zero or the decommissioned count is below it.
    Decommissioned devices count towards the finished threshold, which is
    reached exactly when [MaxDevices] is positive and at most the sum of the
    six terminal counters: with the other counters at zero and at least
    [MaxDevices] devices decommissioned, the status goes from [pending]
    straight to [finished]. *)
Theorem decommissioned_only_status {Time : Type} (d : Deployment Time) :
  Finished d = None ->
  (forall s, 0 < stat (Stats d) s -> s = DeviceDeploymentStatusDecommissioned) ->
  no_overflow d ->
  IsNotPending d = false
  /\ (MaxDevices d = 0
      \/ stat (Stats d) DeviceDeploymentStatusDecommissioned < MaxDevices d ->
      GetStatus d = DeploymentStatusPending)
  /\ (IsFinished d = true
      <-> 0 < MaxDevices d /\ MaxDevices d <= terminal_total d)
  /\ ((forall s, s <> DeviceDeploymentStatusDecommissioned -> stat (Stats d) s = 0) ->
      0 < MaxDevices d ->
      MaxDevices d <= stat (Stats d) DeviceDeploymentStatusDecommissioned ->
      GetStatus d = DeploymentStatusFinished).
Proof.
  intros Hfin Honly Hno.
  assert (Hle : forall s, s <> DeviceDeploymentStatusDecommissioned ->
                          stat (Stats d) s <= 0).
  { intros s Hs.
    destruct (Z_lt_le_dec 0 (stat (Stats d) s)) as [Hpos | Hle]; [ | exact Hle ].
    apply Honly in Hpos. contradiction. }
  assert (Hnp : IsNotPending d = false).
  { apply IsNotPending_false. intros s Hs.
    apply progress_statuses_spec in Hs. destruct Hs as [_ Hs]. auto. }
  assert (Hiff : IsFinished d = true
                 <-> 0 < MaxDevices d /\ MaxDevices d <= terminal_total d).
  { rewrite IsFinished_true, (terminal_sum_exact d Hno). split.
    - intros [H | H]; [ contradiction | exact H ].
    - intros H. right. exact H. }
  split; [ exact Hnp | ]. split; [ | split; [ exact Hiff | ] ].
  - intros Hmax. apply GetStatus_pending; [ | exact Hnp ].
    destruct (IsFinished d) eqn:E; [ | reflexivity ].
    destruct (proj1 Hiff eq_refl) as [Hpos Hsum]. exfalso.
    destruct Hmax as [Hmax | Hmax]; [ lia | ].
    unfold terminal_total in Hsum.
    pose proof (Hle DeviceDeploymentStatusAlreadyInst ltac:(discriminate)).
    pose proof (Hle DeviceDeploymentStatusSuccess ltac:(discriminate)).
    pose proof (Hle DeviceDeploymentStatusFailure ltac:(discriminate)).
    pose proof (Hle DeviceDeploymentStatusNoArtifact ltac:(discriminate)).
    pose proof (Hle DeviceDeploymentStatusAborted ltac:(discriminate)).
    lia.
  - intros Hz Hpos Hdec.
    assert (E : IsFinished d = true).
    { apply Hiff. split; [ exact Hpos | ]. unfold terminal_total.
      rewrite (Hz DeviceDeploymentStatusAlreadyInst) by discriminate.
      rewrite (Hz DeviceDeploymentStatusSuccess) by discriminate.
      rewrite (Hz DeviceDeploymentStatusFailure) by discriminate.
      rewrite (Hz DeviceDeploymentStatusNoArtifact) by discriminate.
      rewrite (Hz DeviceDeploymentStatusAborted) by discriminate.
      lia. }
    unfold GetStatus. rewrite E. reflexivity.
Qed.

Lemma decommissioned_only_status_witness :
  GetStatus (scenario {[ DeviceDeploymentStatusDecommissioned := 1 ]} 2 None)
  = DeploymentStatusPending
  /\ GetStatus (scenario {[ DeviceDeploymentStatusDecommissioned := 2 ]} 2 None)
     = DeploymentStatusFinished.
Proof.
  split.
  - apply (decommissioned_only_status
             (scenario {[ DeviceDeploymentStatusDecommissioned := 1 ]} 2 None)).
    + reflexivity.
    + intros s H. destruct s; try reflexivity; vm_compute in H; discriminate H.
    + vm_compute. intuition discriminate.
    + right. vm_compute. reflexivity.
  - apply (decommissioned_only_status
             (scenario {[ DeviceDeploymentStatusDecommissioned := 2 ]} 2 None)).
    + reflexivity.
    + intros s H. destruct s; try reflexivity; vm_compute in H; discriminate H.
    + vm_compute. intuition discriminate.
    + intros s Hs. destruct s; try reflexivity. contradiction.
    + reflexivity.
    + vm_compute. discriminate.
Defined.

(** Counters within the range of [int] whose sum wraps: the decommissioned
    counter is the only positive one and is below [MaxDevices], [Finished]
    is unset, and the status is [finished]. *)
Lemma decommissioned_only_wraps :
  Finished wrapping_deployment = None
  /\ (forall s, GoInt.in_range (stat (Stats wrapping_deployment) s))
  /\ (forall s, 0 < stat (Stats wrapping_deployment) s ->
                s = DeviceDeploymentStatusDecommissioned)
  /\ stat (Stats wrapping_deployment) DeviceDeploymentStatusDecommissioned
     < MaxDevices wrapping_deployment
  /\ GetStatus wrapping_deployment = DeploymentStatusFinished
  /\ GetStatus wrapping_deployment <> DeploymentStatusPending.
Proof.
  split; [ reflexivity | ]. split.
  { intros s. destruct s; vm_compute; intuition discriminate. }
  split.
  { intros s H. destruct s; try reflexivity; vm_compute in H; discriminate H. }
  split; [ vm_compute; reflexivity | ].
  split; [ vm_compute; reflexivity | vm_compute; discriminate ].
Qed.

(** ** Targeting validation *)

Section ValidatorProperties.

Implicit Types c : DeploymentConstructor.

Lemma IsEmpty_true s : validation.IsEmpty s = true <-> s = "".
Proof.
  unfold validation.IsEmpty. destruct s; simpl; split; congruence.
Qed.

Lemma Required_Length_ok s :
  validation.Validate s [validation.Required; lengthIn1To4096] = None
  <-> (1 <= String.length s <= 4096)%nat.
Proof.
  unfold lengthIn1To4096, validation.Length, validation.Required.
  cbn [validation.Validate].
  unfold validation.IsEmpty.
  destruct (Nat.eqb_spec (String.length s) 0) as [E | E].
  - split; [ discriminate | lia ].
  - change (Nat.ltb 0 1) with true. change (Nat.ltb 0 4096) with true.
    change (Nat.eqb 1 0) with false. cbn [andb orb].
    destruct (Nat.ltb_spec (String.length s) 1) as [H1 | H1];
      destruct (Nat.ltb_spec 4096 (String.length s)) as [H2 | H2];
      cbn [orb]; split; try discriminate; try lia; reflexivity.
Qed.

Lemma each_Required_ok (i : nat) (l : list string) :
  validation.each_from [validation.Required] i l = []
  <-> Forall (fun dev => dev <> "") l.
Proof.
  revert i. induction l as [ | x xs IH ]; intros i; cbn [validation.each_from].
  - split; [ constructor | reflexivity ].
  - cbn [validation.Validate]. unfold validation.Required at 1.
    destruct (validation.IsEmpty x) eqn:E.
    + apply IsEmpty_true in E. split; [ discriminate | ].
      intros H. inversion H; subst. contradiction.
    + rewrite IH. split.
      * intros H. constructor; [ | exact H ].
        intros ->. discriminate E.
      * intros H. inversion H; assumption.
Qed.

(** Structural validity: name and artifact name of length 1 to 4096, no
    empty device id. *)
Lemma Validate_ok c :
  DeploymentConstructor_Validate c = None
  <-> (1 <= String.length (Name c) <= 4096)%nat
      /\ (1 <= String.length (ArtifactName c) <= 4096)%nat
      /\ Forall (fun dev => dev <> "") (Devices c).
Proof.
  unfold DeploymentConstructor_Validate, validation.ValidateStruct, validation.Field.
  rewrite <- !Required_Length_ok, <- (each_Required_ok 0).
  cbn [validation.field_errors].
  assert (Hd : validation.Validate (Devices c) [validation.Each [validation.Required]] = None
               <-> validation.each_from [validation.Required] 0 (Devices c) = []).
  { cbn [validation.Validate]. unfold validation.Each.
    destruct (validation.each_from _ _ _); split; congruence. }
  rewrite <- Hd.
  destruct (validation.Validate (Name c) _);
    destruct (validation.Validate (ArtifactName c) _);
    destruct (validation.Validate (Devices c) _);
    cbn; intuition congruence.
Qed.

Lemma length_zero_string (s : string) : Nat.eqb (String.length s) 0 = true <-> s = "".
Proof. apply IsEmpty_true. Qed.

Lemma length_zero_list {A : Type} (l : list A) :
  Nat.eqb (List.length l) 0 = true <-> l = [].
Proof. destruct l; simpl; split; congruence. Qed.

Lemma length_pos_list {A : Type} (l : list A) :
  Nat.ltb 0 (List.length l) = true <-> l <> [].
Proof. destruct l; cbn; split; intros H; (reflexivity || congruence). Qed.

End ValidatorProperties.

Example scenario_A :
  DeploymentConstructor_ValidateNew (targeting ["d1"; "d2"] false "") = None.
Proof. vm_compute. reflexivity. Qed.

Example scenario_B :
  DeploymentConstructor_ValidateNew (targeting ["d1"; "d2"] true "")
  = Some ErrInvalidDeploymentDefinitionConflict.
Proof. vm_compute. reflexivity. Qed.

Example empty_device_id_rejected :
  DeploymentConstructor_ValidateNew (targeting ["d1"; ""] false "")
  = Some (ValidationError
            (validation.Errors
               [("devices", validation.ErrorsAt [(1%nat, validation.ErrRequired)])])).
Proof. vm_compute. reflexivity. Qed.

(** C4. For a structurally valid constructor with an empty group,
    [ValidateNew] succeeds exactly when one, and only one, of "the device list
    is non-empty" and "all devices" holds; with neither it fails with the
    no-devices error, with both it fails with the devices/all-devices
    conflict error. *)
Theorem ValidateNew_without_group (c : DeploymentConstructor) :
  DeploymentConstructor_Validate c = None ->
  Group c = "" ->
  (DeploymentConstructor_ValidateNew c = None
   <-> (Devices c <> [] /\ AllDevices c = false)
       \/ (Devices c = [] /\ AllDevices c = true))
  /\ (Devices c = [] -> AllDevices c = false ->
      DeploymentConstructor_ValidateNew c
      = Some ErrInvalidDeploymentDefinitionNoDevices)
  /\ (Devices c <> [] -> AllDevices c = true ->
      DeploymentConstructor_ValidateNew c
      = Some ErrInvalidDeploymentDefinitionConflict).
Proof.
  intros Hvalid Hgroup.
  unfold DeploymentConstructor_ValidateNew.
  rewrite Hvalid, Hgroup. cbn [String.length Nat.eqb].
  destruct (Devices c) as [ | dev devs ]; destruct (AllDevices c); cbn;
    intuition (discriminate || congruence).
Qed.

Lemma ValidateNew_without_group_witness :
  DeploymentConstructor_ValidateNew (targeting ["d1"; "d2"] false "") = None
  /\ DeploymentConstructor_ValidateNew (targeting [] false "")
     = Some ErrInvalidDeploymentDefinitionNoDevices
  /\ DeploymentConstructor_ValidateNew (targeting ["d1"; "d2"] true "")
     = Some ErrInvalidDeploymentDefinitionConflict.
Proof.
  split; [ | split ].
  - apply (proj1 (ValidateNew_without_group (targeting ["d1"; "d2"] false "")
                    eq_refl eq_refl)).
    left. split; [ discriminate | reflexivity ].
  - apply (proj1 (proj2 (ValidateNew_without_group (targeting [] false "")
                           eq_refl eq_refl))); reflexivity.
  - apply (proj2 (proj2 (ValidateNew_without_group (targeting ["d1"; "d2"] true "")
                           eq_refl eq_refl))); [ discriminate | reflexivity ].
Defined.

(** C5. For a structurally valid constructor with a non-empty group,
    [ValidateNew] succeeds exactly when the device list is empty and "all
    devices" is false; otherwise it fails with the group conflict error. *)
Theorem ValidateNew_with_group (c : DeploymentConstructor) :
  DeploymentConstructor_Validate c = None ->
  Group c <> "" ->
  (DeploymentConstructor_ValidateNew c = None
   <-> Devices c = [] /\ AllDevices c = false)
  /\ (~ (Devices c = [] /\ AllDevices c = false) ->
      DeploymentConstructor_ValidateNew c
      = Some ErrInvalidDeploymentToGroupDefinitionConflict).
Proof.
  intros Hvalid Hgroup.
  unfold DeploymentConstructor_ValidateNew.
  rewrite Hvalid.
  destruct (Nat.eqb (String.length (Group c)) 0) eqn:E.
  - apply length_zero_string in E. contradiction.
  - destruct (Devices c) as [ | dev devs ]; destruct (AllDevices c); cbn;
      intuition (discriminate || congruence).
Qed.

Lemma ValidateNew_with_group_witness :
  DeploymentConstructor_ValidateNew (targeting [] false "production") = None
  /\ DeploymentConstructor_ValidateNew (targeting ["d1"] false "production")
     = Some ErrInvalidDeploymentToGroupDefinitionConflict
  /\ DeploymentConstructor_ValidateNew (targeting [] true "production")
     = Some ErrInvalidDeploymentToGroupDefinitionConflict.
Proof.
  assert (Hg : "production" <> "") by discriminate.
  split; [ | split ].
  - apply (proj1 (ValidateNew_with_group (targeting [] false "production")
                    eq_refl Hg)).
    split; reflexivity.
  - apply (proj2 (ValidateNew_with_group (targeting ["d1"] false "production")
                    eq_refl Hg)).
    intros [H _]. discriminate H.
  - apply (proj2 (ValidateNew_with_group (targeting [] true "production")
                    eq_refl Hg)).
    intros [_ H]. discriminate H.
Defined.

(** ** Status vocabulary *)

Lemma In_rule_ok (elements : list string) (v : string) :
  validation.In elements v = None <-> v = "" \/ List.In v elements.
Proof.
  unfold validation.In.
  destruct (validation.IsEmpty v) eqn:E.
  - apply IsEmpty_true in E. tauto.
  - assert (Hne : v <> "") by (intros ->; discriminate E).
    destruct (existsb (String.eqb v) elements) eqn:Ex.
    + apply existsb_exists in Ex. destruct Ex as (x & Hin & Heq).
      apply String.eqb_eq in Heq. subst x. tauto.
    + split; [ discriminate | ].
      intros [H | H]; [ contradiction | ].
      assert (existsb (String.eqb v) elements = true).
      { apply existsb_exists. exists v. split; [ exact H | apply String.eqb_refl ]. }
      congruence.
Qed.

Lemma In_rule_error (elements : list string) (v : string) :
  validation.In elements v = None
  \/ validation.In elements v = Some validation.ErrInInvalid.
Proof.
  unfold validation.In.
  destruct (validation.IsEmpty v); [ auto | ].
  destruct (existsb _ _); auto.
Qed.

(** C9, as the code has it.  [DeploymentStatus.Validate] succeeds exactly on
    the empty string and on pending, inprogress and finished, and gives the
    invalid-value error on every other string; [DeploymentType.Validate]
    succeeds exactly on the empty string, software and configuration. *)
Theorem Validate_membership (s : string) :
  (DeploymentStatus_Validate s = None
   <-> s = "" \/ s = DeploymentStatusPending \/ s = DeploymentStatusInProgress
       \/ s = DeploymentStatusFinished)
  /\ (DeploymentStatus_Validate s = None
      \/ DeploymentStatus_Validate s = Some (ValidationError validation.ErrInInvalid))
  /\ (DeploymentType_Validate s = None
      <-> s = "" \/ s = DeploymentTypeSoftware \/ s = DeploymentTypeConfiguration)
  /\ (DeploymentType_Validate s = None
      \/ DeploymentType_Validate s = Some (ValidationError validation.ErrInInvalid)).
Proof.
  unfold DeploymentStatus_Validate, DeploymentType_Validate.
  repeat split.
  - intros H. apply fmap_None in H. apply In_rule_ok in H. simpl in H.
    intuition congruence.
  - intros H. apply fmap_None. apply In_rule_ok. simpl. intuition congruence.
  - destruct (In_rule_error
                [DeploymentStatusFinished; DeploymentStatusInProgress;
                 DeploymentStatusPending] s) as [-> | ->]; auto.
  - intros H. apply fmap_None in H. apply In_rule_ok in H. simpl in H.
    intuition congruence.
  - intros H. apply fmap_None. apply In_rule_ok. simpl. intuition congruence.
  - destruct (In_rule_error
                [DeploymentTypeSoftware; DeploymentTypeConfiguration] s)
      as [-> | ->]; auto.
Qed.

(** The empty string is none of the listed values, and both validators
    accept it. *)
Lemma Validate_accepts_empty :
  DeploymentStatus_Validate "" = None
  /\ "" <> DeploymentStatusPending /\ "" <> DeploymentStatusInProgress
  /\ "" <> DeploymentStatusFinished
  /\ DeploymentType_Validate "" = None
  /\ "" <> DeploymentTypeSoftware /\ "" <> DeploymentTypeConfiguration.
Proof. repeat split; (reflexivity || discriminate). Qed.

Example Validate_rejects_other :
  DeploymentStatus_Validate "aborted" = Some (ValidationError validation.ErrInInvalid)
  /\ DeploymentType_Validate "firmware" = Some (ValidationError validation.ErrInInvalid).
Proof. split; reflexivity. Qed.

(** ** Creation *)

(** C8. [NewDeploymentFromConstructor] always returns a deployment: its id is
    the text of the identifier drawn from the generator, [Created] is the
    time read from the clock, every counter is zero, [Status] is pending and
    [DeviceCount] points at 0; the constructor is the one given. *)
Theorem NewDeploymentFromConstructor_initial
    {Time World UUID : Type}
    (time_Now : World -> Time * World)
    (uuid_NewV4 : World -> UUID * World)
    (uuid_String : UUID -> string)
    (constructor : option DeploymentConstructor) (w : World) :
  exists d : Deployment Time,
    NewDeploymentFromConstructor time_Now uuid_NewV4 uuid_String constructor w
    = (inl d, snd (uuid_NewV4 (snd (time_Now w))))
    /\ Id d = uuid_String (fst (uuid_NewV4 (snd (time_Now w))))
    /\ Created d = Some (fst (time_Now w))
    /\ (forall s, stat (Stats d) s = 0)
    /\ Status d = DeploymentStatusPending
    /\ DeviceCount d = Some 0
    /\ Constructor d = constructor.
Proof.
  unfold NewDeploymentFromConstructor, NewDeployment.
  destruct (time_Now w) as [now w1]. cbn [fst snd].
  destruct (uuid_NewV4 w1) as [uid w2]. cbn [fst snd].
  eexists. split; [ reflexivity | ].
  cbn. repeat split.
  intros s. destruct s; reflexivity.
Qed.

(** Scenario A: the deployment created from the validated constructor. *)
Example scenario_A_created :
  exists d w',
    NewDeploymentFromConstructor example_Now example_NewV4 example_uuid_String
      (Some (targeting ["d1"; "d2"] false "")) 0%nat
    = (inl d, w')
    /\ w' = 1%nat
    /\ Id d = "0f3c1a52-6d46-4e0b-9a57-2f1c8a1d9e11"
    /\ Created d = Some 1609459200
    /\ Stats d = NewDeviceDeploymentStats
    /\ Status d = DeploymentStatusPending
    /\ GetStatus d = DeploymentStatusPending
    /\ DeviceCount d = Some 0.
Proof. eexists. eexists. split; [ reflexivity | ]. repeat split. Qed.

(** ** External representation *)

Section MarshalProperties.

Context {Time : Type} (time_MarshalJSON : Time -> option string).
Implicit Types d : Deployment Time.

Lemma member_app k (l1 l2 : list (string * JSON)) :
  member k (l1 ++ l2)
  = match member k l1 with
    | Some v => Some v
    | None => member k l2
    end.
Proof.
  induction l1 as [ | [k' v'] l1 IH ]; cbn [app member]; [ reflexivity | ].
  destruct (String.eqb k k'); [ reflexivity | exact IH ].
Qed.

Lemma member_absent k (l : list (string * JSON)) :
  ~ List.In k (keys l) -> member k l = None.
Proof.
  induction l as [ | [k' v'] l IH ]; cbn [keys map fst member List.In];
    [ reflexivity | ].
  intros H. destruct (String.eqb_spec k k') as [-> | Hne].
  - exfalso. apply H. left. reflexivity.
  - apply IH. intros Hin. apply H. right. exact Hin.
Qed.

Lemma keys_app (l1 l2 : list (string * JSON)) :
  keys (l1 ++ l2) = (keys l1 ++ keys l2)%list.
Proof. apply map_app. Qed.

Lemma keys_omitempty_string k name s :
  List.In k (keys (omitempty_string name s)) -> k = name.
Proof.
  unfold omitempty_string. destruct (Nat.eqb _ _); cbn; intuition congruence.
Qed.

Lemma keys_omitempty_strings k name l :
  List.In k (keys (omitempty_strings name l)) -> k = name.
Proof.
  unfold omitempty_strings. destruct (Nat.eqb _ _); cbn; intuition congruence.
Qed.

Lemma keys_constructor_members k (c : option DeploymentConstructor) :
  List.In k (keys (constructor_members c))
  -> k = "name" \/ k = "artifact_name"
     \/ (k = "all_devices" /\ exists c', c = Some c' /\ AllDevices c' = true).
Proof.
  destruct c as [c | ]; cbn [constructor_members]; [ | intros [] ].
  rewrite !keys_app, !in_app_iff.
  intros [H | [H | H]].
  - apply keys_omitempty_string in H. auto.
  - apply keys_omitempty_string in H. auto.
  - destruct (AllDevices c) eqn:E; cbn in H; [ | contradiction ].
    destruct H as [<- | []]. right. right. eauto.
Qed.

Lemma all_devices_member (c : DeploymentConstructor) :
  AllDevices c = true ->
  List.In "all_devices" (keys (constructor_members (Some c))).
Proof.
  intros H. cbn [constructor_members].
  rewrite !keys_app, !in_app_iff, H. right. right. left. reflexivity.
Qed.

(** The members written after those of the constructor. *)
Lemma MarshalJSON_shape d j :
  MarshalJSON time_MarshalJSON d = Some j ->
  exists created finished,
    (finished = [] \/ exists t, finished = [("finished", t)])
    /\ j = JObject
             (constructor_members (Constructor d)
              ++ [("created", created)]
              ++ finished
              ++ [("id", JString (Id d))]
              ++ omitempty_strings "artifacts" (Artifacts d)
              ++ [("status", JString (Status d))]
              ++ [("device_count",
                   match DeviceCount d with
                   | None => JNull
                   | Some n => JNumber n
                   end)]
              ++ (if MaxDevices d =? 0 then []
                  else [("max_devices", JNumber (MaxDevices d))])
              ++ (if Nat.eqb (List.length (Configuration d)) 0 then []
                  else [("configuration", JBase64 (Configuration d))])
              ++ omitempty_string "type"
                   (if String.eqb (Type_ d) "" then DeploymentTypeSoftware
                    else Type_ d)).
Proof.
  unfold MarshalJSON. intros H.
  destruct (match Created d with
            | Some t => time_member Time time_MarshalJSON t
            | None => Some JNull
            end) as [created | ] eqn:Ec; [ | discriminate H ].
  cbn [mbind option_bind] in H.
  destruct (match Finished d with
            | Some t => _
            | None => Some []
            end) as [finished | ] eqn:Ef; [ | discriminate H ].
  cbn [mbind option_bind] in H.
  exists created, finished. split.
  - destruct (Finished d) as [t | ]; [ | left; congruence ].
    right. destruct (time_member Time time_MarshalJSON t) as [jt | ];
      [ | discriminate Ef ].
    exists jt. cbn in Ef. congruence.
  - injection H as <-. reflexivity.
Qed.

End MarshalProperties.

(** C6, as the code has it.  The object [MarshalJSON] writes has no [devices]
    member; it has an [all_devices] member exactly when the constructor is
    present with the flag set; and its [type] member is ["software"] whenever
    the deployment's type is empty. *)
Theorem MarshalJSON_members
    {Time : Type} (time_MarshalJSON : Time -> option string)
    (d : Deployment Time) (j : JSON) :
  MarshalJSON time_MarshalJSON d = Some j ->
  exists members,
    j = JObject members
    /\ ~ List.In "devices" (keys members)
    /\ (List.In "all_devices" (keys members)
        <-> exists c, Constructor d = Some c /\ AllDevices c = true)
    /\ (Type_ d = "" -> member "type" members = Some (JString DeploymentTypeSoftware)).
Proof.
  intros H. apply MarshalJSON_shape in H.
  destruct H as (created & finished & Hfin & ->).
  eexists. split; [ reflexivity | ].
  assert (Hcm : forall k,
             List.In k (keys (constructor_members (Constructor d))) ->
             k = "name" \/ k = "artifact_name" \/ k = "all_devices")
    by (intros k Hk; apply keys_constructor_members in Hk; tauto).
  split; [ | split ].
  - rewrite !keys_app, !in_app_iff.
    intros [Hk | [Hk | [Hk | [Hk | [Hk | [Hk | [Hk | [Hk | [Hk | Hk]]]]]]]]].
    + apply Hcm in Hk. intuition discriminate.
    + cbn in Hk. intuition discriminate.
    + destruct Hfin as [-> | [t ->]]; cbn in Hk; intuition discriminate.
    + cbn in Hk. intuition discriminate.
    + apply keys_omitempty_strings in Hk. discriminate.
    + cbn in Hk. intuition discriminate.
    + cbn in Hk. intuition discriminate.
    + destruct (MaxDevices d =? 0); cbn in Hk; intuition discriminate.
    + destruct (Nat.eqb _ _); cbn in Hk; intuition discriminate.
    + apply keys_omitempty_string in Hk. discriminate.
  - split.
    + rewrite !keys_app, !in_app_iff.
      intros [Hk | [Hk | [Hk | [Hk | [Hk | [Hk | [Hk | [Hk | [Hk | Hk]]]]]]]]].
      * apply keys_constructor_members in Hk.
        destruct Hk as [Hk | [Hk | [_ Hk]]]; [ discriminate | discriminate | exact Hk ].
      * cbn in Hk. intuition discriminate.
      * destruct Hfin as [-> | [t ->]]; cbn in Hk; intuition discriminate.
      * cbn in Hk. intuition discriminate.
      * apply keys_omitempty_strings in Hk. discriminate.
      * cbn in Hk. intuition discriminate.
      * cbn in Hk. intuition discriminate.
      * destruct (MaxDevices d =? 0); cbn in Hk; intuition discriminate.
      * destruct (Nat.eqb _ _); cbn in Hk; intuition discriminate.
      * apply keys_omitempty_string in Hk. discriminate.
    + intros (c & Hc & Hall). rewrite Hc, keys_app, in_app_iff. left.
      apply all_devices_member. exact Hall.
  - intros Hty. rewrite Hty. cbn [String.eqb].
    rewrite member_app, member_absent
      by (intros Hk; apply Hcm in Hk; intuition discriminate).
    destruct Hfin as [-> | [t ->]];
      destruct (MaxDevices d =? 0); destruct (Nat.eqb (List.length (Configuration d)) 0);
      unfold omitempty_strings; destruct (Nat.eqb (List.length (Artifacts d)) 0);
      reflexivity.
Qed.

Lemma MarshalJSON_members_witness :
  exists members,
    MarshalJSON example_time_text
      (scenario {[ DeviceDeploymentStatusInstalling := 1 ]} 2 None)
    = Some (JObject members)
    /\ ~ List.In "devices" (keys members)
    /\ ~ List.In "all_devices" (keys members)
    /\ member "type" members = Some (JString "software").
Proof.
  destruct (MarshalJSON_members example_time_text
              (scenario {[ DeviceDeploymentStatusInstalling := 1 ]} 2 None)
              _ eq_refl)
    as (members & Hj & Hdev & Hall & Hty).
  exists members. split; [ rewrite <- Hj; reflexivity | ].
  split; [ exact Hdev | ]. split.
  - intros Hin. apply Hall in Hin. destruct Hin as (c & Hc & Hflag).
    injection Hc as <-. discriminate Hflag.
  - apply Hty. reflexivity.
Defined.

(** The flag of a deployment created for all devices is written out. *)
Lemma MarshalJSON_emits_all_devices :
  MarshalJSON example_time_text all_devices_deployment
  = Some (JObject
            [ ("name", JString "r1");
              ("artifact_name", JString "app-v2");
              ("all_devices", JBool true);
              ("created", JNull);
              ("id", JString "0f3c1a52-6d46-4e0b-9a57-2f1c8a1d9e11");
              ("status", JString "pending");
              ("device_count", JNumber 0);
              ("type", JString "software") ])
  /\ AllDevices (targeting [] true "") = true
  /\ member "all_devices"
       [ ("name", JString "r1");
         ("artifact_name", JString "app-v2");
         ("all_devices", JBool true);
         ("created", JNull);
         ("id", JString "0f3c1a52-6d46-4e0b-9a57-2f1c8a1d9e11");
         ("status", JString "pending");
         ("device_count", JNumber 0);
         ("type", JString "software") ]
     = Some (JBool true).
Proof. repeat split. Qed.

(** ** The validators leave their input alone *)

Section MemProperties.

Implicit Types h : Mem.heap.
Implicit Types c : Mem.constructor_struct.
Implicit Types s : Mem.slice.

Lemma alloc_fresh h : Mem.vars h !! fresh (dom (Mem.vars h)) = None.
Proof. apply not_elem_of_dom. apply is_fresh. Qed.

Lemma field_run {A : Type} (f : Mem.constructor_struct -> A) h p c :
  Mem.vars h !! p = Some c -> Mem.field f p h = Some (f c, h).
Proof.
  intros H. unfold Mem.field, Mem.bind, Mem.load, Mem.ret. rewrite H. reflexivity.
Qed.

Lemma slice_array h s :
  Mem.slice_ok h s -> (0 < Mem.s_len s)%nat ->
  Mem.arrays h !! Mem.s_array s
  = Some (default [] (Mem.arrays h !! Mem.s_array s)).
Proof.
  unfold Mem.slice_ok. intros Hok Hlen.
  destruct (Mem.arrays h !! Mem.s_array s) as [arr | ]; [ reflexivity | ].
  cbn in Hok. lia.
Qed.

Lemma elements_from_run h s (i n : nat) :
  Mem.slice_ok h s ->
  (i + n = Mem.s_len s)%nat ->
  Mem.elements_from s i n h
  = Some (take n (drop (Mem.s_offset s + i)
                       (default [] (Mem.arrays h !! Mem.s_array s))), h).
Proof.
  intros Hok. revert i.
  induction n as [ | n IH ]; intros i Hin; cbn [Mem.elements_from].
  - rewrite take_0. reflexivity.
  - unfold Mem.bind at 1. unfold Mem.index.
    assert (Hlt : Nat.ltb i (Mem.s_len s) = true) by (apply Nat.ltb_lt; lia).
    rewrite Hlt, (slice_array h s Hok) by lia.
    set (arr := default [] (Mem.arrays h !! Mem.s_array s)) in *.
    assert (Hx : is_Some (arr !! (Mem.s_offset s + i)%nat)).
    { apply lookup_lt_is_Some_2. unfold Mem.slice_ok in Hok. fold arr in Hok. lia. }
    destruct Hx as [x Hx]. rewrite Hx.
    unfold Mem.bind at 1. rewrite (IH (S i)) by lia. fold arr.
    unfold Mem.ret. change (default [] (Some arr)) with arr.
    rewrite (drop_S _ _ _ Hx). cbn [take].
    replace (S (Mem.s_offset s + i)) with (Mem.s_offset s + S i)%nat by lia.
    reflexivity.
Qed.

Lemma elements_run h s :
  Mem.slice_ok h s -> Mem.elements s h = Some (Mem.contents h s, h).
Proof.
  intros Hok. unfold Mem.elements, Mem.contents.
  rewrite (elements_from_run h s 0 (Mem.s_len s) Hok) by lia.
  rewrite Nat.add_0_r. reflexivity.
Qed.

Lemma contents_length h s :
  Mem.slice_ok h s -> List.length (Mem.contents h s) = Mem.s_len s.
Proof.
  unfold Mem.slice_ok, Mem.contents. intros Hok.
  rewrite length_take, length_drop. lia.
Qed.

Lemma with_copy_vars h c (q : positive) (v : Mem.constructor_struct) :
  Mem.vars h !! q = Some v -> Mem.vars (with_copy h c) !! q = Some v.
Proof.
  intros H. cbn [with_copy Mem.vars].
  rewrite lookup_insert_ne; [ exact H | ].
  intros E. rewrite <- E, alloc_fresh in H. discriminate H.
Qed.

(** The memory-level [Validate] computes the pure one on the value the
    receiver holds: it adds a variable of its own and writes nowhere
    else. *)
Lemma Validate_run h p c :
  Mem.vars h !! p = Some c ->
  Mem.slice_ok h (Mem.f_Devices c) ->
  Mem.Validate p h
  = Some (DeploymentConstructor_Validate (Mem.value_of h c), with_copy h c).
Proof.
  intros H Hok. unfold Mem.Validate.
  unfold Mem.bind at 1. unfold Mem.load at 1. rewrite H.
  unfold Mem.bind at 1. unfold Mem.alloc. cbv zeta. fold (with_copy h c).
  assert (Hc : Mem.vars (with_copy h c) !! fresh (dom (Mem.vars h)) = Some c)
    by apply lookup_insert_eq.
  unfold Mem.bind at 1. rewrite (field_run Mem.f_Name _ _ _ Hc).
  unfold Mem.bind at 1. rewrite (field_run Mem.f_ArtifactName _ _ _ Hc).
  unfold Mem.bind at 1. rewrite (field_run Mem.f_Devices _ _ _ Hc).
  unfold Mem.bind at 1.
  rewrite (elements_run (with_copy h c) (Mem.f_Devices c)) by exact Hok.
  reflexivity.
Qed.

Lemma ValidateNew_run h p c :
  Mem.vars h !! p = Some c ->
  Mem.slice_ok h (Mem.f_Devices c) ->
  Mem.ValidateNew p h
  = Some (DeploymentConstructor_ValidateNew (Mem.value_of h c),
          with_copy (with_copy h c) c).
Proof.
  intros H Hok. unfold Mem.ValidateNew.
  unfold Mem.bind at 1. unfold Mem.load at 1. rewrite H.
  unfold Mem.bind at 1. unfold Mem.alloc. cbv zeta. fold (with_copy h c).
  assert (Hc : Mem.vars (with_copy h c) !! fresh (dom (Mem.vars h)) = Some c)
    by apply lookup_insert_eq.
  unfold Mem.bind at 1.
  rewrite (Validate_run (with_copy h c) _ c Hc) by exact Hok.
  change (Mem.value_of (with_copy h c) c) with (Mem.value_of h c).
  assert (Hc2 : Mem.vars (with_copy (with_copy h c) c) !! fresh (dom (Mem.vars h))
                = Some c) by (apply with_copy_vars; exact Hc).
  unfold DeploymentConstructor_ValidateNew.
  destruct (DeploymentConstructor_Validate (Mem.value_of h c)) as [err | ];
    [ reflexivity | ].
  unfold Mem.bind at 1. rewrite (field_run Mem.f_Group _ _ _ Hc2).
  unfold Mem.bind at 1. rewrite (field_run Mem.f_Devices _ _ _ Hc2).
  unfold Mem.bind at 1. rewrite (field_run Mem.f_AllDevices _ _ _ Hc2).
  cbn [Mem.value_of Group Devices AllDevices].
  rewrite (contents_length h (Mem.f_Devices c) Hok).
  destruct (Nat.eqb (String.length (Mem.f_Group c)) 0);
    destruct (Nat.eqb (Mem.s_len (Mem.f_Devices c)) 0);
    destruct (Nat.ltb 0 (Mem.s_len (Mem.f_Devices c)));
    destruct (Mem.f_AllDevices c); reflexivity.
Qed.

End MemProperties.

(** The copy made for a value receiver shares the backing array of
    [Devices]: a write through the copy's slice is read back through the
    caller's variable. *)
Example copy_shares_array :
  fst <$> (Mem.bind (Mem.load 1)
             (fun arg => Mem.bind (Mem.alloc arg)
             (fun c => Mem.bind (Mem.field Mem.f_Devices c)
             (fun d => Mem.bind (Mem.store_index d 0 EmptyString)
             (fun _ => Mem.bind (Mem.field Mem.f_Devices 1)
             (fun devices => Mem.elements devices)))))
             example_heap)
  = Some [EmptyString; "d2"].
Proof. vm_compute. reflexivity. Qed.

(** C7. Called on a constructor held in a variable, [Validate] and
    [ValidateNew] return what the pure validators return on the value the
    variable holds, device ids included.  They leave every array as it was,
    the backing array of [Devices] among them, and every variable that
    existed before the call with the value it had.  A second [ValidateNew]
    on the resulting memory returns the same result. *)
Theorem validators_leave_input
    (h : Mem.heap) (p : positive) (c : Mem.constructor_struct) :
  Mem.vars h !! p = Some c ->
  Mem.slice_ok h (Mem.f_Devices c) ->
  exists h1 h2 h3,
    Mem.Validate p h = Some (DeploymentConstructor_Validate (Mem.value_of h c), h1)
    /\ Mem.arrays h1 = Mem.arrays h
    /\ (forall q v, Mem.vars h !! q = Some v -> Mem.vars h1 !! q = Some v)
    /\ Mem.ValidateNew p h
       = Some (DeploymentConstructor_ValidateNew (Mem.value_of h c), h2)
    /\ Mem.arrays h2 = Mem.arrays h
    /\ (forall q v, Mem.vars h !! q = Some v -> Mem.vars h2 !! q = Some v)
    /\ Mem.ValidateNew p h2
       = Some (DeploymentConstructor_ValidateNew (Mem.value_of h c), h3)
    /\ Mem.arrays h3 = Mem.arrays h
    /\ (forall q v, Mem.vars h !! q = Some v -> Mem.vars h3 !! q = Some v).
Proof.
  intros H Hok.
  set (h2 := with_copy (with_copy h c) c).
  assert (H2 : Mem.vars h2 !! p = Some c)
    by (apply with_copy_vars, with_copy_vars; exact H).
  assert (Hok2 : Mem.slice_ok h2 (Mem.f_Devices c)) by exact Hok.
  exists (with_copy h c), h2, (with_copy (with_copy h2 c) c).
  split; [ apply Validate_run; assumption | ].
  split; [ reflexivity | ].
  split; [ intros q v Hq; apply with_copy_vars; exact Hq | ].
  split; [ apply ValidateNew_run; assumption | ].
  split; [ reflexivity | ].
  split; [ intros q v Hq; apply with_copy_vars, with_copy_vars; exact Hq | ].
  split.
  { rewrite (ValidateNew_run h2 p c H2 Hok2). reflexivity. }
  split; [ reflexivity | ].
  intros q v Hq. do 4 apply with_copy_vars. exact Hq.
Qed.

Lemma validators_leave_input_witness :
  exists h1 h2 h3,
    Mem.Validate 1%positive example_heap = Some (None, h1)
    /\ Mem.arrays h1 !! 2%positive = Some ["d1"; "d2"]
    /\ Mem.ValidateNew 1%positive example_heap = Some (None, h2)
    /\ Mem.vars h2 !! 1%positive = Some example_struct
    /\ Mem.ValidateNew 1%positive h2 = Some (None, h3)
    /\ Mem.arrays h3 !! 2%positive = Some ["d1"; "d2"].
Proof.
  assert (Hok : Mem.slice_ok example_heap (Mem.f_Devices example_struct))
    by (vm_compute; lia).
  destruct (validators_leave_input example_heap 1%positive example_struct
              eq_refl Hok)
    as (h1 & h2 & h3 & Hr1 & Ha1 & Hs1 & Hr2 & Ha2 & Hs2 & Hr3 & Ha3 & Hs3).
  exists h1, h2, h3.
  split; [ exact Hr1 | ]. split; [ rewrite Ha1; reflexivity | ].
  split; [ exact Hr2 | ]. split; [ apply Hs2; reflexivity | ].
  split; [ exact Hr3 | ]. rewrite Ha3. reflexivity.
Defined.

(** * Further properties of the model *)

(** ** Targeting validation, all modes *)

(** [ValidateNew] succeeds exactly when the constructor is structurally
    valid and selects one targeting mode and no other: a device list, all
    devices, or a group. *)
Theorem ValidateNew_success (c : DeploymentConstructor) :
  DeploymentConstructor_ValidateNew c = None
  <-> DeploymentConstructor_Validate c = None
      /\ ((Group c = "" /\ Devices c <> [] /\ AllDevices c = false)
          \/ (Group c = "" /\ Devices c = [] /\ AllDevices c = true)
          \/ (Group c <> "" /\ Devices c = [] /\ AllDevices c = false)).
Proof.
  unfold DeploymentConstructor_ValidateNew.
  destruct (DeploymentConstructor_Validate c) as [err | ].
  - split; [ discriminate | intros [H _]; discriminate H ].
  - destruct (Nat.eqb (String.length (Group c)) 0) eqn:Eg.
    + apply length_zero_string in Eg. rewrite Eg.
      destruct (Devices c) as [ | dev devs ]; destruct (AllDevices c); cbn;
        intuition (discriminate || congruence).
    + assert (Hg : Group c <> "").
      { intros H. rewrite H in Eg. discriminate Eg. }
      destruct (Devices c) as [ | dev devs ]; destruct (AllDevices c); cbn;
        intuition (discriminate || congruence).
Qed.

(** The errors of [ValidateNew]: a structural error is returned as
    [Validate] gives it, whatever the targeting; the three targeting errors
    are returned for structurally valid constructors only, each for its own
    combination. *)
Theorem ValidateNew_errors (c : DeploymentConstructor) (e : error) :
  DeploymentConstructor_ValidateNew c = Some e
  <-> DeploymentConstructor_Validate c = Some e
      \/ (DeploymentConstructor_Validate c = None
          /\ ((e = ErrInvalidDeploymentDefinitionNoDevices
               /\ Group c = "" /\ Devices c = [] /\ AllDevices c = false)
              \/ (e = ErrInvalidDeploymentDefinitionConflict
                  /\ Group c = "" /\ Devices c <> [] /\ AllDevices c = true)
              \/ (e = ErrInvalidDeploymentToGroupDefinitionConflict
                  /\ Group c <> "" /\ (Devices c <> [] \/ AllDevices c = true)))).
Proof.
  unfold DeploymentConstructor_ValidateNew.
  destruct (DeploymentConstructor_Validate c) as [err | ].
  - split; [ auto | ]. intros [H | [H _]]; [ exact H | discriminate H ].
  - destruct (Nat.eqb (String.length (Group c)) 0) eqn:Eg.
    + apply length_zero_string in Eg. rewrite Eg.
      destruct (Devices c) as [ | dev devs ]; destruct (AllDevices c); cbn;
        intuition (discriminate || congruence).
    + assert (Hg : Group c <> "").
      { intros H. rewrite H in Eg. discriminate Eg. }
      destruct (Devices c) as [ | dev devs ]; destruct (AllDevices c); cbn;
        intuition (discriminate || congruence).
Qed.

(** ** What a structural error reports *)

Lemma field_errors_In (fields : list (string * option validation.Error))
    (n : string) (e : validation.Error) :
  List.In (n, e) (validation.field_errors fields) <-> List.In (n, Some e) fields.
Proof.
  induction fields as [ | [n' [e' | ]] fields IH ]; cbn [validation.field_errors List.In].
  - tauto.
  - rewrite IH. split; (intros [H | H]; [ left; congruence | right; exact H ]).
  - rewrite IH. split; [ auto | ]. intros [H | H]; [ discriminate H | exact H ].
Qed.

Lemma string_field_result (s : string) :
  validation.Validate s [validation.Required; lengthIn1To4096]
  = if Nat.eqb (String.length s) 0 then Some validation.ErrRequired
    else if Nat.ltb 4096 (String.length s)
         then Some (validation.ErrLengthOutOfRange 1 4096)
         else None.
Proof.
  unfold lengthIn1To4096, validation.Length, validation.Required.
  cbn [validation.Validate]. unfold validation.IsEmpty.
  destruct (Nat.eqb_spec (String.length s) 0) as [E | E]; [ reflexivity | ].
  change (Nat.ltb 0 1) with true. change (Nat.ltb 0 4096) with true.
  change (Nat.eqb 1 0) with false. cbn [andb orb].
  destruct (Nat.ltb_spec (String.length s) 1) as [H1 | H1]; [ lia | ].
  cbn [orb]. rewrite orb_false_r.
  destruct (Nat.ltb 4096 (String.length s)); reflexivity.
Qed.

Lemma each_from_In (k : nat) (l : list string) (i : nat) (e : validation.Error) :
  List.In (i, e) (validation.each_from [validation.Required] k l)
  <-> exists j, i = (k + j)%nat /\ l !! j = Some "" /\ e = validation.ErrRequired.
Proof.
  revert k. induction l as [ | x xs IH ]; intros k; cbn [validation.each_from].
  - split; [ intros [] | ]. intros (j & _ & H & _). discriminate H.
  - cbn [validation.Validate]. unfold validation.Required at 1.
    destruct (validation.IsEmpty x) eqn:E.
    + apply IsEmpty_true in E. subst x. cbn [List.In]. rewrite IH. split.
      * intros [H | (j & -> & Hj & ->)].
        -- injection H as <- <-. exists 0%nat. repeat split. lia.
        -- exists (S j). repeat split; [ lia | exact Hj ].
      * intros (j & -> & Hj & ->). destruct j as [ | j ].
        -- left. f_equal. lia.
        -- right. exists j. repeat split; [ lia | exact Hj ].
    + assert (Hx : x <> "") by (intros ->; discriminate E).
      rewrite IH. split.
      * intros (j & -> & Hj & ->). exists (S j). repeat split; [ lia | exact Hj ].
      * intros (j & -> & Hj & ->). destruct j as [ | j ].
        -- cbn in Hj. congruence.
        -- exists j. repeat split; [ lia | exact Hj ].
Qed.

Lemma string_field_result_Some (s : string) (e : validation.Error) :
  validation.Validate s [validation.Required; lengthIn1To4096] = Some e
  <-> string_field_error s e.
Proof.
  rewrite string_field_result. unfold string_field_error.
  destruct (Nat.eqb (String.length s) 0) eqn:E0.
  - apply length_zero_string in E0. subst s. cbn.
    split; [ intros H; left; split; congruence | ].
    intros [[_ ->] | [H _]]; [ reflexivity | cbn in H; lia ].
  - assert (Hs : s <> "") by (intros ->; discriminate E0).
    destruct (Nat.ltb_spec 4096 (String.length s)) as [H | H].
    + split; [ intros He; right; split; [ exact H | congruence ] | ].
      intros [[Hc _] | [_ ->]]; [ contradiction | reflexivity ].
    + split; [ discriminate | ].
      intros [[Hc _] | [Hc _]]; [ contradiction | lia ].
Qed.

(** [Validate] either succeeds or returns a non-empty list of field errors
    that names exactly the offending fields: [name] and [artifact_name] when
    empty (required) or longer than 4096 bytes (length), and [devices], when
    some device id is empty, with exactly the positions of the empty ids. *)
Theorem Validate_report (c : DeploymentConstructor) :
  DeploymentConstructor_Validate c = None
  \/ exists errs,
       DeploymentConstructor_Validate c
       = Some (ValidationError (validation.Errors errs))
       /\ errs <> []
       /\ (forall e, List.In ("name", e) errs <-> string_field_error (Name c) e)
       /\ (forall e, List.In ("artifact_name", e) errs
                     <-> string_field_error (ArtifactName c) e)
       /\ ((exists e, List.In ("devices", e) errs)
           <-> exists i, Devices c !! i = Some "")
       /\ (forall e, List.In ("devices", e) errs ->
                     exists ixs,
                       e = validation.ErrorsAt ixs
                       /\ forall i e',
                            List.In (i, e') ixs
                            <-> Devices c !! i = Some ""
                                /\ e' = validation.ErrRequired)
       /\ (forall n e, List.In (n, e) errs ->
                       n = "name" \/ n = "artifact_name" \/ n = "devices").
Proof.
  unfold DeploymentConstructor_Validate, validation.ValidateStruct, validation.Field.
  set (fields := [ ("name", _); ("artifact_name", _); ("devices", _) ]).
  destruct (validation.field_errors fields) as [ | p errs0 ] eqn:Eerrs;
    [ left; reflexivity | right ].
  exists (p :: errs0). split; [ reflexivity | ]. split; [ discriminate | ].
  rewrite <- Eerrs. clear Eerrs p errs0. subst fields.
  assert (Hin : forall i e',
             List.In (i, e') (validation.each_from [validation.Required] 0 (Devices c))
             <-> Devices c !! i = Some "" /\ e' = validation.ErrRequired).
  { intros i e'. rewrite each_from_In. split.
    - intros (j & -> & Hj & ->). auto.
    - intros [Hi ->]. exists i. auto. }
  assert (Hdev : forall e,
             validation.Validate (Devices c) [validation.Each [validation.Required]]
             = Some e
             <-> validation.each_from [validation.Required] 0 (Devices c) <> []
                 /\ e = validation.ErrorsAt
                          (validation.each_from [validation.Required] 0 (Devices c))).
  { intros e. cbn [validation.Validate]. unfold validation.Each.
    destruct (validation.each_from [validation.Required] 0 (Devices c));
      split; try discriminate.
    - intros [H _]. contradiction.
    - intros H. split; [ discriminate | congruence ].
    - intros [_ ->]. reflexivity. }
  repeat split.
  - intros H. apply field_errors_In in H. cbn [List.In] in H.
    destruct H as [H | [H | [H | []]]]; try discriminate H.
    injection H as H. apply string_field_result_Some. exact H.
  - intros H. apply field_errors_In. left. f_equal.
    apply string_field_result_Some. exact H.
  - intros H. apply field_errors_In in H. cbn [List.In] in H.
    destruct H as [H | [H | [H | []]]]; try discriminate H.
    injection H as H. apply string_field_result_Some. exact H.
  - intros H. apply field_errors_In. right. left. f_equal.
    apply string_field_result_Some. exact H.
  - intros [e H]. apply field_errors_In in H. cbn [List.In] in H.
    destruct H as [H | [H | [H | []]]]; try discriminate H.
    injection H as H. apply Hdev in H. destruct H as [Hne _].
    destruct (validation.each_from [validation.Required] 0 (Devices c))
      as [ | [i e'] ixs ] eqn:E; [ contradiction | ].
    exists i. apply (Hin i e'). left. reflexivity.
  - intros [i Hi].
    exists (validation.ErrorsAt
              (validation.each_from [validation.Required] 0 (Devices c))).
    apply field_errors_In. right. right. left. f_equal. apply Hdev.
    split; [ | reflexivity ].
    intros E. assert (Hc : List.In (i, validation.ErrRequired)
                             (validation.each_from [validation.Required] 0 (Devices c)))
      by (apply Hin; auto).
    rewrite E in Hc. exact Hc.
  - intros e H. apply field_errors_In in H. cbn [List.In] in H.
    destruct H as [H | [H | [H | []]]]; try discriminate H.
    injection H as H. apply Hdev in H. destruct H as [_ ->].
    eexists. split; [ reflexivity | exact Hin ].
  - intros n e H. apply field_errors_In in H. cbn [List.In] in H.
    destruct H as [H | [H | [H | []]]]; injection H as <- _; auto.
Qed.

Example Validate_report_example :
  DeploymentConstructor_Validate
    {| Name := EmptyString; ArtifactName := "app-v2";
       Devices := ["d1"; EmptyString; "d3"; EmptyString];
       AllDevices := false; Group := EmptyString |}
  = Some (ValidationError
            (validation.Errors
               [ ("name", validation.ErrRequired);
                 ("devices",
                  validation.ErrorsAt
                    [ (1%nat, validation.ErrRequired);
                      (3%nat, validation.ErrRequired) ]) ])).
Proof. vm_compute. reflexivity. Qed.

(** ** Derived status, continued *)

(** [GetStatus] returns one of the three deployment statuses, never the
    empty string, and the result passes [DeploymentStatus.Validate]. *)
Theorem GetStatus_valid {Time : Type} (d : Deployment Time) :
  (GetStatus d = DeploymentStatusPending
   \/ GetStatus d = DeploymentStatusInProgress
   \/ GetStatus d = DeploymentStatusFinished)
  /\ GetStatus d <> ""
  /\ DeploymentStatus_Validate (GetStatus d) = None.
Proof.
  unfold GetStatus.
  destruct (IsFinished d); [ | destruct (IsNotPending d) ];
    (split; [ tauto | split; [ discriminate | reflexivity ] ]).
Qed.

Lemma terminal_total_mono {Time : Type} (d d' : Deployment Time) :
  (forall s, stat (Stats d) s <= stat (Stats d') s) ->
  terminal_total d <= terminal_total d'.
Proof.
  intros H. unfold terminal_total.
  pose proof (H DeviceDeploymentStatusAlreadyInst).
  pose proof (H DeviceDeploymentStatusSuccess).
  pose proof (H DeviceDeploymentStatusFailure).
  pose proof (H DeviceDeploymentStatusNoArtifact).
  pose proof (H DeviceDeploymentStatusDecommissioned).
  pose proof (H DeviceDeploymentStatusAborted).
  lia.
Qed.

(** As long as the additions do not wrap, a finished deployment stays
    finished when counters grow: for the same [MaxDevices], a [Finished]
    timestamp that is kept, and counters that are each at least what they
    were, [IsFinished] remains true. *)
Theorem IsFinished_monotone {Time : Type} (d d' : Deployment Time) :
  no_overflow d -> no_overflow d' ->
  MaxDevices d' = MaxDevices d ->
  (Finished d <> None -> Finished d' <> None) ->
  (forall s, stat (Stats d) s <= stat (Stats d') s) ->
  IsFinished d = true ->
  IsFinished d' = true.
Proof.
  intros Hno Hno' Hmax Hfin Hle H.
  apply IsFinished_true in H. apply IsFinished_true.
  destruct H as [H | [Hpos Hsum]]; [ left; auto | right ].
  rewrite (terminal_sum_exact d Hno) in Hsum.
  rewrite (terminal_sum_exact d' Hno'), Hmax.
  pose proof (terminal_total_mono d d' Hle). lia.
Qed.

Lemma IsFinished_monotone_witness :
  IsFinished (scenario {[ DeviceDeploymentStatusSuccess := 1;
                          DeviceDeploymentStatusFailure := 1;
                          DeviceDeploymentStatusPending := 1 ]} 2 None) = true.
Proof.
  apply (IsFinished_monotone
           (scenario {[ DeviceDeploymentStatusSuccess := 1;
                        DeviceDeploymentStatusFailure := 1 ]} 2 None)).
  - vm_compute. intuition discriminate.
  - vm_compute. intuition discriminate.
  - reflexivity.
  - intros H. exact H.
  - intros s. destruct s; vm_compute; discriminate.
  - vm_compute. reflexivity.
Defined.

Lemma all_zero_pending {Time : Type} (d : Deployment Time) :
  Finished d = None ->
  (forall s, stat (Stats d) s = 0) ->
  IsFinished d = false /\ IsNotPending d = false.
Proof.
  intros Hfin Hz. split.
  - destruct (IsFinished d) eqn:E; [ | reflexivity ].
    apply IsFinished_true in E. destruct E as [E | [Hpos Hle]]; [ contradiction | ].
    exfalso. revert Hle. unfold terminal_sum. rewrite !Hz.
    assert (H00 : GoInt.add 0 0 = 0) by reflexivity.
    rewrite !H00. lia.
  - apply IsNotPending_false. intros s _. rewrite Hz. lia.
Qed.

(** A deployment without a [Finished] timestamp whose counters are all zero
    is pending, whatever [MaxDevices] is. *)
Theorem zero_counters_pending {Time : Type} (d : Deployment Time) :
  Finished d = None ->
  (forall s, stat (Stats d) s = 0) ->
  GetStatus d = DeploymentStatusPending.
Proof.
  intros Hfin Hz. destruct (all_zero_pending d Hfin Hz) as [Hf Hn].
  apply GetStatus_pending; assumption.
Qed.

Lemma zero_counters_pending_witness :
  GetStatus (scenario {[ DeviceDeploymentStatusPending := 0 ]} 5 None)
  = DeploymentStatusPending.
Proof.
  apply (zero_counters_pending (scenario {[ DeviceDeploymentStatusPending := 0 ]} 5 None)).
  - reflexivity.
  - intros s. destruct s; reflexivity.
Defined.

(** The status stored by [NewDeploymentFromConstructor] agrees with the
    derived one: the deployment it returns is neither finished nor in
    progress, and [GetStatus] gives the [Status] it was created with. *)
Theorem created_status_agrees
    {Time World UUID : Type}
    (time_Now : World -> Time * World)
    (uuid_NewV4 : World -> UUID * World)
    (uuid_String : UUID -> string)
    (constructor : option DeploymentConstructor) (w w' : World)
    (d : Deployment Time) :
  NewDeploymentFromConstructor time_Now uuid_NewV4 uuid_String constructor w
  = (inl d, w') ->
  IsFinished d = false /\ IsNotPending d = false
  /\ GetStatus d = Status d.
Proof.
  unfold NewDeploymentFromConstructor, NewDeployment.
  destruct (time_Now w) as [now w1]. destruct (uuid_NewV4 w1) as [uid w2].
  intros H. injection H as <- _.
  match goal with
  | |- IsFinished ?D = false /\ _ =>
      destruct (all_zero_pending D) as [Hf Hn];
        [ reflexivity | intros s; destruct s; reflexivity | ]
  end.
  split; [ exact Hf | ]. split; [ exact Hn | ].
  rewrite (GetStatus_pending _ Hf Hn). reflexivity.
Qed.

Lemma created_status_agrees_witness :
  exists d,
    fst (NewDeploymentFromConstructor example_Now example_NewV4 example_uuid_String
           (Some (targeting ["d1"; "d2"] false "")) 0%nat) = inl d
    /\ GetStatus d = Status d.
Proof.
  eexists. split; [ reflexivity | ].
  eapply (created_status_agrees example_Now example_NewV4 example_uuid_String).
  reflexivity.
Defined.

(** ** Validation of a deployment *)

Lemma record_error_empty (name : string) (r : option FieldError)
    (errs : gmap string FieldError) :
  record_error name r errs = ∅ <-> r = None /\ errs = ∅.
Proof.
  destruct r as [e | ]; cbn [record_error].
  - split; [ | intros [H _]; discriminate H ].
    intros H. exfalso. exact (insert_non_empty _ _ _ H).
  - tauto.
Qed.

Lemma merge_errors_empty (es : list (string * validation.Error))
    (errs : gmap string FieldError) :
  merge_errors es errs = ∅ <-> es = [] /\ errs = ∅.
Proof.
  unfold merge_errors. revert errs.
  induction es as [ | [n e] es IH ]; intros errs; cbn [foldl fst snd].
  - tauto.
  - rewrite IH. split.
    + intros [_ H]. exfalso. exact (insert_non_empty _ _ _ H).
    + intros [H _]. discriminate H.
Qed.

Lemma Constructor_Validate_errors (c : DeploymentConstructor) (e : error) :
  DeploymentConstructor_Validate c = Some e ->
  exists es, e = ValidationError (validation.Errors es) /\ es <> [].
Proof.
  unfold DeploymentConstructor_Validate, validation.ValidateStruct.
  destruct (validation.field_errors _) as [ | p es ]; [ discriminate | ].
  intros H. injection H as <-. eexists. split; [ reflexivity | discriminate ].
Qed.

Lemma validate_constructor_empty (p : option DeploymentConstructor) :
  validate_constructor p ∅ = ∅
  <-> exists c, p = Some c /\ DeploymentConstructor_Validate c = None.
Proof.
  destruct p as [c | ]; cbn [validate_constructor NotNil].
  - destruct (DeploymentConstructor_Validate c) as [e | ] eqn:E.
    + destruct (Constructor_Validate_errors c e E) as (es & -> & Hne).
      rewrite merge_errors_empty. split.
      * intros [H _]. contradiction.
      * intros (c' & Hc & H). injection Hc as <-. congruence.
    + split; [ eauto | reflexivity ].
  - split.
    + intros H. exfalso. exact (insert_non_empty _ _ _ H).
    + intros (c & H & _). discriminate H.
Qed.

Lemma Each_Required_ok (l : list string) :
  validation.Each [validation.Required] l = None <-> Forall (fun x => x <> "") l.
Proof.
  unfold validation.Each. rewrite <- (each_Required_ok 0).
  destruct (validation.each_from _ _ _); split; congruence.
Qed.

(** [Deployment.Validate] succeeds exactly when no field records an error. *)
Lemma Deployment_Validate_fields
    {Time : Type} (time_IsZero : Time -> bool) (govalidator_IsUUID : string -> bool)
    (d : Deployment Time) :
  Deployment_Validate time_IsZero govalidator_IsUUID d = None
  <-> validate_constructor (Constructor d) ∅ = ∅
      /\ Required_time Time time_IsZero (Created d) = None
      /\ match RuleError <$> validation.Required (Id d) with
         | Some e => Some e
         | None => is_UUID govalidator_IsUUID (Id d)
         end = None
      /\ validation.Each [validation.Required] (Artifacts d) = None
      /\ validation.Each [validation.Required] (DeviceList d) = None.
Proof.
  unfold Deployment_Validate. cbv zeta.
  destruct (decide (_ = ∅)) as [E | E].
  - split; [ intros _ | reflexivity ].
    apply record_error_empty in E. destruct E as [Hdl E].
    apply record_error_empty in E. destruct E as [Har E].
    apply record_error_empty in E. destruct E as [Hid E].
    apply record_error_empty in E. destruct E as [Hcr E].
    apply fmap_None in Hdl. apply fmap_None in Har. auto.
  - split; [ discriminate | ].
    intros (Hc & Hcr & Hid & Har & Hdl). exfalso. apply E.
    apply record_error_empty. split; [ apply fmap_None; exact Hdl | ].
    apply record_error_empty. split; [ apply fmap_None; exact Har | ].
    apply record_error_empty. split; [ exact Hid | ].
    apply record_error_empty. split; [ exact Hcr | exact Hc ].
Qed.

Lemma Required_time_ok {Time : Type} (time_IsZero : Time -> bool) (p : option Time) :
  Required_time Time time_IsZero p = None
  <-> exists t, p = Some t /\ time_IsZero t = false.
Proof.
  unfold Required_time. destruct p as [t | ].
  - destruct (time_IsZero t) eqn:E.
    + split; [ discriminate | ].
      intros (t' & Ht & Hz). injection Ht as <-. congruence.
    + split; [ eauto | reflexivity ].
  - split; [ discriminate | ]. intros (t & H & _). discriminate H.
Qed.

Lemma Id_rules_ok (govalidator_IsUUID : string -> bool) (id : string) :
  match RuleError <$> validation.Required id with
  | Some e => Some e
  | None => is_UUID govalidator_IsUUID id
  end = None
  <-> id <> "" /\ govalidator_IsUUID id = true.
Proof.
  unfold validation.Required, is_UUID.
  destruct (validation.IsEmpty id) eqn:Ee; cbn.
  - apply IsEmpty_true in Ee. split; [ discriminate | ]. intros [H _]. contradiction.
  - assert (Hne : id <> "") by (intros ->; discriminate Ee).
    destruct (govalidator_IsUUID id).
    + split; [ auto | reflexivity ].
    + split; [ discriminate | ]. intros [_ H]. discriminate H.
Qed.

(** [Deployment.Validate] succeeds exactly when the constructor is present
    and passes its own [Validate], [Created] is set to a time that is not the
    zero time, [Id] is a non-empty UUID, and neither [Artifacts] nor
    [DeviceList] holds an empty string.  [Status], [Type], the counters and
    the other fields are not checked. *)
Theorem Deployment_Validate_success
    {Time : Type} (time_IsZero : Time -> bool) (govalidator_IsUUID : string -> bool)
    (d : Deployment Time) :
  Deployment_Validate time_IsZero govalidator_IsUUID d = None
  <-> (exists c, Constructor d = Some c /\ DeploymentConstructor_Validate c = None)
      /\ (exists t, Created d = Some t /\ time_IsZero t = false)
      /\ Id d <> ""
      /\ govalidator_IsUUID (Id d) = true
      /\ Forall (fun a => a <> "") (Artifacts d)
      /\ Forall (fun dev => dev <> "") (DeviceList d).
Proof.
  rewrite Deployment_Validate_fields.
  rewrite validate_constructor_empty, Required_time_ok, Id_rules_ok.
  rewrite !Each_Required_ok. tauto.
Qed.

Lemma record_error_lookup_ne (name k : string) (r : option FieldError)
    (errs : gmap string FieldError) :
  name <> k -> record_error name r errs !! k = errs !! k.
Proof.
  intros H. destruct r; cbn [record_error]; [ | reflexivity ].
  apply lookup_insert_ne. exact H.
Qed.

(** A deployment made by [NewDeploymentFromConstructor] passes
    [Deployment.Validate] exactly when the constructor it was given is
    present and structurally valid, the clock did not read the zero time,
    and the text of the generated identifier is a non-empty UUID. *)
Theorem created_deployment_validates
    {Time World UUID : Type}
    (time_IsZero : Time -> bool) (govalidator_IsUUID : string -> bool)
    (time_Now : World -> Time * World)
    (uuid_NewV4 : World -> UUID * World)
    (uuid_String : UUID -> string)
    (constructor : option DeploymentConstructor) (w w' : World)
    (d : Deployment Time) :
  NewDeploymentFromConstructor time_Now uuid_NewV4 uuid_String constructor w
  = (inl d, w') ->
  (Deployment_Validate time_IsZero govalidator_IsUUID d = None
   <-> (exists c, constructor = Some c /\ DeploymentConstructor_Validate c = None)
       /\ time_IsZero (fst (time_Now w)) = false
       /\ Id d <> ""
       /\ govalidator_IsUUID (Id d) = true).
Proof.
  unfold NewDeploymentFromConstructor, NewDeployment.
  destruct (time_Now w) as [now w1]. destruct (uuid_NewV4 w1) as [uid w2].
  intros H. injection H as <- _.
  rewrite Deployment_Validate_fields.
  cbn [Constructor Created Id Artifacts DeviceList fst].
  rewrite validate_constructor_empty, Required_time_ok, Id_rules_ok.
  split.
  - intros (Hc & (t & Ht & Hz) & [Hid Hu] & _ & _).
    injection Ht as <-. auto.
  - intros (Hc & Hz & Hid & Hu).
    split; [ exact Hc | ]. split; [ eauto | ].
    split; [ auto | ]. split; reflexivity.
Qed.

Lemma created_deployment_validates_witness :
  exists d,
    fst (NewDeploymentFromConstructor example_Now example_NewV4 example_uuid_String
           (Some (targeting ["d1"; "d2"] false "")) 0%nat) = inl d
    /\ Deployment_Validate example_IsZero example_IsUUID d = None.
Proof.
  eexists. split; [ reflexivity | ].
  eapply (proj2 (created_deployment_validates example_IsZero example_IsUUID
                   example_Now example_NewV4 example_uuid_String
                   (Some (targeting ["d1"; "d2"] false "")) 0%nat _ _ eq_refl)).
  split; [ eexists; split; reflexivity | ].
  split; [ reflexivity | ]. split; [ discriminate | reflexivity ].
Defined.

(** A deployment made by [NewDeployment] alone does not pass
    [Deployment.Validate]: its constructor is present but empty, and the
    errors include the missing name and artifact name. *)
Theorem NewDeployment_not_valid
    {Time World UUID : Type}
    (time_IsZero : Time -> bool) (govalidator_IsUUID : string -> bool)
    (time_Now : World -> Time * World)
    (uuid_NewV4 : World -> UUID * World)
    (uuid_String : UUID -> string)
    (w w' : World) (d : Deployment Time) :
  NewDeployment time_Now uuid_NewV4 uuid_String w = (inl d, w') ->
  exists errs,
    Deployment_Validate time_IsZero govalidator_IsUUID d = Some errs
    /\ errs !! "name" = Some (RuleError validation.ErrRequired)
    /\ errs !! "artifact_name" = Some (RuleError validation.ErrRequired)
    /\ errs !! "DeploymentConstructor" = None.
Proof.
  unfold NewDeployment.
  destruct (time_Now w) as [now w1]. destruct (uuid_NewV4 w1) as [uid w2].
  intros H. injection H as <- _.
  unfold Deployment_Validate. cbv zeta.
  cbn [Constructor Created Id Artifacts DeviceList].
  set (errs0 := validate_constructor _ ∅).
  assert (H0 : errs0 !! "name" = Some (RuleError validation.ErrRequired)
               /\ errs0 !! "artifact_name" = Some (RuleError validation.ErrRequired)
               /\ errs0 !! "DeploymentConstructor" = None)
    by (repeat split; vm_compute; reflexivity).
  clearbody errs0. destruct H0 as (Hn & Ha & Hd).
  match goal with
  | |- context [ decide (?m = ∅) ] =>
      assert (Hm : m !! "name" = Some (RuleError validation.ErrRequired)
                   /\ m !! "artifact_name" = Some (RuleError validation.ErrRequired)
                   /\ m !! "DeploymentConstructor" = None)
        by (rewrite !record_error_lookup_ne by discriminate; auto);
      destruct (decide (m = ∅)) as [E | E]
  end.
  - exfalso. destruct Hm as [Hm _]. rewrite E in Hm.
    rewrite lookup_empty in Hm. discriminate Hm.
  - eexists. split; [ reflexivity | exact Hm ].
Qed.

Lemma NewDeployment_not_valid_witness :
  exists d errs,
    fst (NewDeployment example_Now example_NewV4 example_uuid_String 0%nat) = inl d
    /\ Deployment_Validate example_IsZero example_IsUUID d = Some errs
    /\ errs !! "name" = Some (RuleError validation.ErrRequired).
Proof.
  destruct (NewDeployment_not_valid example_IsZero example_IsUUID
              example_Now example_NewV4 example_uuid_String 0%nat _ _ eq_refl)
    as (errs & H1 & H2 & _).
  eexists. exists errs. split; [ reflexivity | ]. split; assumption.
Defined.

(** ** External representation, continued *)

(** [MarshalJSON] fails exactly when the [time] package cannot render
    [Created] or [Finished]; nothing else makes it fail. *)
Theorem MarshalJSON_fails
    {Time : Type} (time_MarshalJSON : Time -> option string) (d : Deployment Time) :
  MarshalJSON time_MarshalJSON d = None
  <-> (exists t, Created d = Some t /\ time_MarshalJSON t = None)
      \/ (exists t, Finished d = Some t /\ time_MarshalJSON t = None).
Proof.
  unfold MarshalJSON, time_member.
  destruct (Created d) as [tc | ]; destruct (Finished d) as [tf | ];
    try destruct (time_MarshalJSON tc) as [sc | ] eqn:Ec;
    try destruct (time_MarshalJSON tf) as [sf | ] eqn:Ef;
    cbn; split; try discriminate; try (intros _; eauto; fail);
    intros [(t & Ht & Hn) | (t & Ht & Hn)]; try discriminate Ht;
    injection Ht as <-; congruence.
Qed.

Lemma sublist_keys_omitempty_string (name s : string) :
  keys (omitempty_string name s) `sublist_of` [name].
Proof.
  unfold omitempty_string. destruct (Nat.eqb _ _); cbn.
  - apply sublist_nil_l.
  - reflexivity.
Qed.

Lemma sublist_keys_omitempty_strings (name : string) (l : list string) :
  keys (omitempty_strings name l) `sublist_of` [name].
Proof.
  unfold omitempty_strings. destruct (Nat.eqb _ _); cbn.
  - apply sublist_nil_l.
  - reflexivity.
Qed.

Lemma sublist_keys_constructor_members (c : option DeploymentConstructor) :
  keys (constructor_members c) `sublist_of` ["name"; "artifact_name"; "all_devices"].
Proof.
  destruct c as [c | ]; cbn [constructor_members]; [ | apply sublist_nil_l ].
  rewrite !keys_app.
  change ["name"; "artifact_name"; "all_devices"]
    with (["name"] ++ ["artifact_name"] ++ ["all_devices"])%list.
  apply sublist_app; [ apply sublist_keys_omitempty_string | ].
  apply sublist_app; [ apply sublist_keys_omitempty_string | ].
  destruct (AllDevices c); cbn; [ reflexivity | apply sublist_nil_l ].
Qed.

Lemma slim_Type_not_empty (t : DeploymentType) :
  omitempty_string "type" (if String.eqb t "" then DeploymentTypeSoftware else t)
  = [("type", JString (if String.eqb t "" then DeploymentTypeSoftware else t))].
Proof.
  unfold omitempty_string.
  destruct (String.eqb_spec t "") as [-> | Hne]; [ reflexivity | ].
  destruct (Nat.eqb (String.length t) 0) eqn:E; [ | reflexivity ].
  apply length_zero_string in E. contradiction.
Qed.

(** The object [MarshalJSON] writes: its member names are taken from a
    fixed list of twelve, in that order and without repetition, and
    [created], [id], [status], [device_count] and [type] are always among
    them. *)
Theorem MarshalJSON_keys
    {Time : Type} (time_MarshalJSON : Time -> option string)
    (d : Deployment Time) (j : JSON) :
  MarshalJSON time_MarshalJSON d = Some j ->
  exists members,
    j = JObject members
    /\ keys members `sublist_of` json_keys
    /\ NoDup (keys members)
    /\ (forall k, List.In k ["created"; "id"; "status"; "device_count"; "type"] ->
                  List.In k (keys members)).
Proof.
  intros H. apply (MarshalJSON_shape time_MarshalJSON) in H.
  destruct H as (created & finished & Hfin & ->).
  eexists. split; [ reflexivity | ].
  rewrite slim_Type_not_empty.
  assert (Hsub :
    keys (constructor_members (Constructor d)
          ++ [("created", created)] ++ finished ++ [("id", JString (Id d))]
          ++ omitempty_strings "artifacts" (Artifacts d)
          ++ [("status", JString (Status d))]
          ++ [("device_count",
               match DeviceCount d with
               | Some n => JNumber n
               | None => JNull
               end)]
          ++ (if MaxDevices d =? 0 then []
              else [("max_devices", JNumber (MaxDevices d))])
          ++ (if Nat.eqb (List.length (Configuration d)) 0 then []
              else [("configuration", JBase64 (Configuration d))])
          ++ [("type",
               JString (if String.eqb (Type_ d) "" then DeploymentTypeSoftware
                        else Type_ d))])
    `sublist_of` json_keys).
  { rewrite !keys_app.
    change json_keys
      with (["name"; "artifact_name"; "all_devices"] ++ ["created"] ++ ["finished"]
            ++ ["id"] ++ ["artifacts"] ++ ["status"] ++ ["device_count"]
            ++ ["max_devices"] ++ ["configuration"] ++ ["type"])%list.
    apply sublist_app; [ apply sublist_keys_constructor_members | ].
    apply sublist_app; [ reflexivity | ].
    apply sublist_app;
      [ destruct Hfin as [-> | [t ->]]; cbn; [ apply sublist_nil_l | reflexivity ] | ].
    apply sublist_app; [ reflexivity | ].
    apply sublist_app; [ apply sublist_keys_omitempty_strings | ].
    apply sublist_app; [ reflexivity | ].
    apply sublist_app; [ reflexivity | ].
    apply sublist_app;
      [ destruct (MaxDevices d =? 0); cbn; [ apply sublist_nil_l | reflexivity ] | ].
    apply sublist_app;
      [ destruct (Nat.eqb _ _); cbn; [ apply sublist_nil_l | reflexivity ] | ].
    reflexivity. }
  split; [ exact Hsub | ].
  split.
  { eapply sublist_NoDup; [ | exact Hsub ].
    apply (bool_decide_unpack _). vm_compute. exact I. }
  intros k Hk. rewrite !keys_app, !in_app_iff. cbn [keys map fst List.In].
  cbn [List.In] in Hk.
  destruct Hk as [<- | [<- | [<- | [<- | [<- | []]]]]]; tauto.
Qed.

Lemma MarshalJSON_keys_witness :
  exists members,
    MarshalJSON example_time_text
      (scenario {[ DeviceDeploymentStatusSuccess := 1 ]} 2 (Some 1609462800))
    = Some (JObject members)
    /\ NoDup (keys members)
    /\ List.In "type" (keys members).
Proof.
  destruct (MarshalJSON_keys example_time_text
              (scenario {[ DeviceDeploymentStatusSuccess := 1 ]} 2 (Some 1609462800))
              _ eq_refl)
    as (members & Hj & _ & Hnd & Hall).
  exists members. split; [ rewrite <- Hj; reflexivity | ].
  split; [ exact Hnd | ]. apply Hall. simpl. tauto.
Defined.

(** What [MarshalJSON] writes does not depend on the counters, on the
    resolved device list, or on the device list and the group of the
    constructor: replacing them by any other values gives the same result. *)
Theorem MarshalJSON_hidden
    {Time : Type} (time_MarshalJSON : Time -> option string) (d : Deployment Time)
    (stats : StatsT) (deviceList devices : list string) (group : string) :
  MarshalJSON time_MarshalJSON (with_hidden d stats deviceList devices group)
  = MarshalJSON time_MarshalJSON d.
Proof.
  unfold MarshalJSON, with_hidden.
  cbn [Constructor Created Finished Id Artifacts Status DeviceCount MaxDevices
       Type_ Configuration].
  destruct (Constructor d) as [c | ]; reflexivity.
Qed.

Example MarshalJSON_scenario :
  MarshalJSON example_time_text
    (scenario {[ DeviceDeploymentStatusSuccess := 1 ]} 2 (Some 1609462800))
  = Some (JObject
            [ ("name", JString "r1");
              ("artifact_name", JString "app-v2");
              ("created", JString "2021-01-01T00:00:00Z");
              ("finished", JString "2021-01-01T00:00:00Z");
              ("id", JString "0f3c1a52-6d46-4e0b-9a57-2f1c8a1d9e11");
              ("status", JString "pending");
              ("device_count", JNumber 2);
              ("max_devices", JNumber 2);
              ("type", JString "software") ]).
Proof. reflexivity. Qed.

(** * The storage client *)

Section ClientProperties.

Import azblob.
Context {sdk : SDK}.

Implicit Types c : client.
Implicit Types w : World.

Lemma foldl_Values_Add (key : string) (values : list string) (q : Values) (k : string) :
  foldl (fun q value => Values_Add key value q) q values !! k
  = if decide (k = key /\ values <> [])
    then Some (default [] (q !! k) ++ values)%list
    else q !! k.
Proof.
  revert q. induction values as [ | v vs IH ]; intros q; cbn [foldl].
  - destruct (decide _) as [[_ H] | _]; [ contradiction | reflexivity ].
  - rewrite IH. unfold Values_Add.
    destruct (decide (k = key /\ vs <> [])) as [[-> Hvs] | Hn].
    + rewrite lookup_insert_eq. cbn [default].
      destruct (decide _) as [_ | Hc]; [ | exfalso; apply Hc; split; [ reflexivity | discriminate ] ].
      unfold id. rewrite <- List.app_assoc. reflexivity.
    + destruct (decide (k = key)) as [-> | Hne].
      * assert (vs = []) as ->.
        { destruct vs; [ reflexivity | exfalso; apply Hn; split; [ reflexivity | discriminate ] ]. }
        rewrite lookup_insert_eq.
        destruct (decide _) as [_ | Hc]; [ reflexivity | ].
        exfalso. apply Hc. split; [ reflexivity | discriminate ].
      * rewrite lookup_insert_ne by congruence.
        destruct (decide _) as [[Hc _] | _]; [ contradiction | reflexivity ].
Qed.

(** After the loops, a key holds its former values followed by those of
    [qSAS]; a key [qSAS] does not have, or has without values, is as it
    was. *)
Lemma add_all_lookup (qSAS q : Values) (k : string) :
  add_all qSAS q !! k
  = match qSAS !! k with
    | Some (v :: vs) => Some (default [] (q !! k) ++ v :: vs)%list
    | _ => q !! k
    end.
Proof.
  unfold add_all. revert k.
  apply (map_fold_weak_ind
           (fun (r : Values) (m : Values) =>
              forall k, r !! k = match m !! k with
                                 | Some (v :: vs) => Some (default [] (q !! k) ++ v :: vs)%list
                                 | _ => q !! k
                                 end)).
  - intros k. rewrite lookup_empty. reflexivity.
  - intros i x m r Hi IH k. rewrite foldl_Values_Add.
    destruct (decide (k = i /\ x <> [])) as [[-> Hx] | Hn].
    + rewrite lookup_insert_eq. rewrite (IH i), Hi.
      destruct x as [ | v vs ]; [ contradiction | reflexivity ].
    + destruct (decide (k = i)) as [-> | Hne].
      * rewrite lookup_insert_eq. rewrite (IH i), Hi.
        destruct x as [ | v vs ]; [ reflexivity | ].
        exfalso. apply Hn. split; [ reflexivity | discriminate ].
      * rewrite lookup_insert_ne by congruence. apply IH.
Qed.

(** [buildSignedURL] fails only when [net/url] rejects the blob URL or the
    encoded token, with that error.  Otherwise the result is the blob URL
    with a new query, in which every parameter of the blob URL is kept and
    the values of the token follow those the URL already had for the same
    key. *)
Theorem buildSignedURL_query (blobURL : string) (SASParams : SASQueryParameters) :
  match buildSignedURL blobURL SASParams with
  | inr err =>
      url_Parse blobURL = inr err
      \/ ((exists baseURL, url_Parse blobURL = inl baseURL)
          /\ url_ParseQuery (SAS_Encode SASParams) = inr err)
  | inl uri =>
      exists baseURL qSAS q,
        url_Parse blobURL = inl baseURL
        /\ url_ParseQuery (SAS_Encode SASParams) = inl qSAS
        /\ uri = URL_String (URL_set_RawQuery baseURL (Values_Encode q))
        /\ forall k,
             q !! k
             = match qSAS !! k with
               | Some (v :: vs) =>
                   Some (default [] (URL_Query baseURL !! k) ++ v :: vs)%list
               | _ => URL_Query baseURL !! k
               end
  end.
Proof.
  unfold buildSignedURL.
  destruct (url_Parse blobURL) as [baseURL | err]; [ | left; reflexivity ].
  destruct (url_ParseQuery (SAS_Encode SASParams)) as [qSAS | err].
  - exists baseURL, qSAS, (add_all qSAS (URL_Query baseURL)).
    repeat split. apply add_all_lookup.
  - right. split; [ eauto | reflexivity ].
Qed.

Lemma normalize_cases (err : option ExtError) :
  match normalize err with
  | None => err = None
  | Some r =>
      exists e, err = Some e
        /\ ((r = ErrObjectNotFound
             /\ StorageErrorCode e = Some StorageErrorCodeBlobNotFound)
            \/ (r = External e
                /\ StorageErrorCode e <> Some StorageErrorCodeBlobNotFound))
  end.
Proof.
  destruct err as [e | ]; cbn [normalize]; [ | reflexivity ].
  destruct (StorageErrorCode e) as [code | ] eqn:Ec.
  - destruct (String.eqb_spec code StorageErrorCodeBlobNotFound) as [-> | Hne].
    + exists e. split; [ reflexivity | ]. left. split; [ reflexivity | exact Ec ].
    + exists e. split; [ reflexivity | ]. right. split; [ reflexivity | congruence ].
  - exists e. split; [ reflexivity | ]. right. split; [ reflexivity | congruence ].
Qed.

Lemma signed_link_error (op : Op) (bc : BlobClient) (perms : BlobSASPermissions)
    (duration : Duration) (method : string) (hdrs : option (gmap string string))
    w (err : error ExtError) :
  fst (signed_link op bc perms duration method hdrs w) = inr err ->
  exists message e, err = OpError op message (External e).
Proof.
  unfold signed_link. destruct (time_Now w) as [t w'].
  destruct (GetSASToken _ _ _ _) as [qParams | e].
  - destruct (buildSignedURL _ _) as [uri | e]; cbn [fst]; [ discriminate | ].
    intros H. injection H as <-. eauto.
  - cbn [fst]. intros H. injection H as <-. eauto.
Qed.

Lemma signed_link_world (op : Op) (bc : BlobClient) (perms : BlobSASPermissions)
    (duration : Duration) (method : string) (hdrs : option (gmap string string)) w :
  snd (signed_link op bc perms duration method hdrs w) = snd (time_Now w).
Proof.
  unfold signed_link. destruct (time_Now w) as [t w'].
  destruct (GetSASToken _ _ _ _) as [qParams | e]; [ | reflexivity ].
  destruct (buildSignedURL _ _); reflexivity.
Qed.

Lemma signed_link_ok (op : Op) (bc : BlobClient) (perms : BlobSASPermissions)
    (duration : Duration) (method : string) (hdrs : option (gmap string string))
    w (link : Link) :
  fst (signed_link op bc perms duration method hdrs w) = inl link ->
  let now := time_UTC (fst (time_Now w)) in
  exists qParams,
    GetSASToken bc perms now (time_Add now duration) = inl qParams
    /\ buildSignedURL (blob_URL bc) qParams = inl (Uri link)
    /\ Expire link = time_Add now duration
    /\ Method link = method
    /\ Header link = hdrs.
Proof.
  unfold signed_link. destruct (time_Now w) as [t w']. cbn [fst].
  destruct (GetSASToken _ _ _ _) as [qParams | e]; [ | discriminate ].
  destruct (buildSignedURL _ _) as [uri | e] eqn:Eu; [ | discriminate ].
  cbn [fst]. intros H. injection H as <-. cbn.
  exists qParams. repeat split. exact Eu.
Qed.

(** Every error a method of the client returns is an operation error that
    wraps, once, either the not-found condition or an error of the SDK.  Its
    tag is the method's own; [GetRequest] also passes on the errors of the
    [StatObject] it starts with. *)
Theorem client_errors c (path : string) (src : Reader) (duration : Duration) w :
  (forall err, fst (HealthCheck c w) = Some err -> op_error [OpHealthCheck] err)
  /\ (forall err, fst (PutObject c path src w) = Some err ->
                  op_error [OpPutObject] err)
  /\ (forall err, fst (DeleteObject c path w) = Some err ->
                  op_error [OpDeleteObject] err)
  /\ (forall err, fst (StatObject c path w) = inr err ->
                  op_error [OpStatObject] err)
  /\ (forall err, fst (GetRequest c path duration w) = inr err ->
                  op_error [OpStatObject; OpGetRequest] err)
  /\ (forall err, fst (DeleteRequest c path duration w) = inr err ->
                  op_error [OpDeleteRequest] err)
  /\ (forall err, fst (PutRequest c path duration w) = inr err ->
                  op_error [OpPutRequest] err).
Proof.
  assert (Hstat : forall err, fst (StatObject c path w) = inr err ->
                              op_error [OpStatObject] err).
  { intros err. unfold StatObject.
    destruct (NewBlockBlobClient (container c) path) as [bc | e]; cbn [fst].
    - destruct (blob_GetProperties bc w) as [[rsp e] w'].
      pose proof (normalize_cases e) as Hn.
      destruct (normalize e) as [r | ]; cbn [fst]; [ | discriminate ].
      intros H. injection H as <-.
      destruct Hn as (e' & _ & [[-> _] | [-> _]]);
        eexists _, _, _; (split; [ reflexivity | ]); (split; [ left; reflexivity | eauto ]).
    - intros H. injection H as <-.
      eexists _, _, _. split; [ reflexivity | ]. split; [ left; reflexivity | eauto ]. }
  repeat split.
  - intros err. unfold HealthCheck.
    destruct (container_GetProperties (container c) w) as [[e | ] w']; cbn [fst];
      [ | discriminate ].
    intros H. injection H as <-.
    eexists _, _, _. split; [ reflexivity | ]. split; [ left; reflexivity | eauto ].
  - intros err. unfold PutObject.
    destruct (NewBlockBlobClient (container c) path) as [bc | e]; cbn [fst].
    + destruct (UploadStream _ _ _ _) as [[e | ] w']; cbn [fst]; [ | discriminate ].
      intros H. injection H as <-.
      eexists _, _, _. split; [ reflexivity | ]. split; [ left; reflexivity | eauto ].
    + intros H. injection H as <-.
      eexists _, _, _. split; [ reflexivity | ]. split; [ left; reflexivity | eauto ].
  - intros err. unfold DeleteObject.
    destruct (NewBlockBlobClient (container c) path) as [bc | e]; cbn [fst].
    + destruct (blob_Delete bc w) as [e w'].
      pose proof (normalize_cases e) as Hn.
      destruct (normalize e) as [r | ]; cbn [fst]; [ | discriminate ].
      intros H. injection H as <-.
      destruct Hn as (e' & _ & [[-> _] | [-> _]]);
        eexists _, _, _; (split; [ reflexivity | ]); (split; [ left; reflexivity | eauto ]).
    + intros H. injection H as <-.
      eexists _, _, _. split; [ reflexivity | ]. split; [ left; reflexivity | eauto ].
  - exact Hstat.
  - intros err. unfold GetRequest.
    destruct (StatObject c path w) as [[info | e] w1] eqn:Es; cbn [fst].
    + destruct (NewBlobClient (container c) path) as [bc | e].
      * intros H. apply signed_link_error in H. destruct H as (message & e & ->).
        eexists _, _, _. split; [ reflexivity | ].
        split; [ right; left; reflexivity | eauto ].
      * cbn [fst]. intros H. injection H as <-.
        eexists _, _, _. split; [ reflexivity | ].
        split; [ right; left; reflexivity | eauto ].
    + intros H. injection H as <-.
      destruct (Hstat e) as (op & message & reason & -> & Hop & Hr);
        [ reflexivity | ].
      eexists _, _, _. split; [ reflexivity | ]. split; [ | exact Hr ].
      destruct Hop as [<- | []]. left. reflexivity.
  - intros err. unfold DeleteRequest.
    destruct (NewBlobClient (container c) path) as [bc | e].
    + intros H. apply signed_link_error in H. destruct H as (message & e & ->).
      eexists _, _, _. split; [ reflexivity | ]. split; [ left; reflexivity | eauto ].
    + cbn [fst]. intros H. injection H as <-.
      eexists _, _, _. split; [ reflexivity | ]. split; [ left; reflexivity | eauto ].
  - intros err. unfold PutRequest.
    destruct (NewBlobClient (container c) path) as [bc | e].
    + intros H. apply signed_link_error in H. destruct H as (message & e & ->).
      eexists _, _, _. split; [ reflexivity | ]. split; [ left; reflexivity | eauto ].
    + cbn [fst]. intros H. injection H as <-.
      eexists _, _, _. split; [ reflexivity | ]. split; [ left; reflexivity | eauto ].
Qed.

Lemma StatObject_not_found c (path : string) w :
  (exists err, fst (StatObject c path w) = inr err /\ reports_not_found err)
  <-> exists bc e,
        NewBlockBlobClient (container c) path = inl bc
        /\ snd (fst (blob_GetProperties bc w)) = Some e
        /\ StorageErrorCode e = Some StorageErrorCodeBlobNotFound.
Proof.
  unfold StatObject, reports_not_found.
  destruct (NewBlockBlobClient (container c) path) as [bc | e0]; cbn [fst].
  - destruct (blob_GetProperties bc w) as [[rsp e] w'] eqn:Eg. cbn [fst snd].
    pose proof (normalize_cases e) as Hn.
    destruct (normalize e) as [r | ]; cbn [fst].
    + destruct Hn as (e' & -> & [[-> Hc] | [-> Hc]]).
      * split; [ intros _; exists bc, e'; rewrite Eg; split; [ reflexivity | split; [ reflexivity | exact Hc ] ] | ].
        intros _. eexists. split; [ reflexivity | eauto ].
      * split.
        -- intros (err & H & op & message & ->). discriminate H.
        -- intros (bc' & e & Hbc & He & Hcode).
           injection Hbc as <-. rewrite Eg in He. injection He as <-. contradiction.
    + subst e. split.
      * intros (err & H & _). discriminate H.
      * intros (bc' & e & Hbc & He & _).
        injection Hbc as <-. rewrite Eg in He. discriminate He.
  - split.
    + intros (err & H & op & message & ->). discriminate H.
    + intros (bc & e & H & _). discriminate H.
Qed.

(** When the not-found condition is reported.  [DeleteObject] and
    [StatObject] report it exactly when the service answers with the
    blob-not-found code; [GetRequest] exactly when its [StatObject] does;
    [HealthCheck], [PutObject], [DeleteRequest] and [PutRequest] never. *)
Theorem not_found_reports c (path : string) (src : Reader) (duration : Duration) w :
  ((exists err, fst (DeleteObject c path w) = Some err /\ reports_not_found err)
   <-> exists bc e,
         NewBlockBlobClient (container c) path = inl bc
         /\ fst (blob_Delete bc w) = Some e
         /\ StorageErrorCode e = Some StorageErrorCodeBlobNotFound)
  /\ ((exists err, fst (StatObject c path w) = inr err /\ reports_not_found err)
      <-> exists bc e,
            NewBlockBlobClient (container c) path = inl bc
            /\ snd (fst (blob_GetProperties bc w)) = Some e
            /\ StorageErrorCode e = Some StorageErrorCodeBlobNotFound)
  /\ ((exists err, fst (GetRequest c path duration w) = inr err
                   /\ reports_not_found err)
      <-> exists err, fst (StatObject c path w) = inr err /\ reports_not_found err)
  /\ (forall err, fst (HealthCheck c w) = Some err -> ~ reports_not_found err)
  /\ (forall err, fst (PutObject c path src w) = Some err -> ~ reports_not_found err)
  /\ (forall err, fst (DeleteRequest c path duration w) = inr err ->
                  ~ reports_not_found err)
  /\ (forall err, fst (PutRequest c path duration w) = inr err ->
                  ~ reports_not_found err).
Proof.
  split; [ | split; [ apply StatObject_not_found | split ] ].
  - unfold DeleteObject, reports_not_found.
    destruct (NewBlockBlobClient (container c) path) as [bc | e0]; cbn [fst].
    + destruct (blob_Delete bc w) as [e w'] eqn:Eg. cbn [fst].
      pose proof (normalize_cases e) as Hn.
      destruct (normalize e) as [r | ]; cbn [fst].
      * destruct Hn as (e' & -> & [[-> Hc] | [-> Hc]]).
        -- split; [ intros _; exists bc, e'; rewrite Eg; split; [ reflexivity | split; [ reflexivity | exact Hc ] ] | ].
           intros _. eexists. split; [ reflexivity | eauto ].
        -- split.
           ++ intros (err & H & op & message & ->). discriminate H.
           ++ intros (bc' & e & Hbc & He & Hcode).
              injection Hbc as <-. rewrite Eg in He. injection He as <-. contradiction.
      * subst e. split.
        -- intros (err & H & _). discriminate H.
        -- intros (bc' & e & Hbc & He & _).
           injection Hbc as <-. rewrite Eg in He. discriminate He.
    + split.
      * intros (err & H & op & message & ->). discriminate H.
      * intros (bc & e & H & _). discriminate H.
  - unfold GetRequest.
    destruct (StatObject c path w) as [[info | e] w1]; cbn [fst].
    + split.
      * intros (err & H & op & message & ->).
        destruct (NewBlobClient (container c) path) as [bc | e].
        -- apply signed_link_error in H. destruct H as (m & e & H). discriminate H.
        -- discriminate H.
      * intros (err & H & _). discriminate H.
    + split; intros (err & H & Hnf); injection H as <-; eauto.
  - repeat split.
    + intros err. unfold HealthCheck.
      destruct (container_GetProperties (container c) w) as [[e | ] w']; cbn [fst];
        [ | discriminate ].
      intros H (op & message & ->). discriminate H.
    + intros err. unfold PutObject.
      destruct (NewBlockBlobClient (container c) path) as [bc | e]; cbn [fst].
      * destruct (UploadStream _ _ _ _) as [[e | ] w']; cbn [fst]; [ | discriminate ].
        intros H (op & message & ->). discriminate H.
      * intros H (op & message & ->). discriminate H.
    + intros err. unfold DeleteRequest.
      destruct (NewBlobClient (container c) path) as [bc | e].
      * intros H (op & message & ->).
        apply signed_link_error in H. destruct H as (m & e & H). discriminate H.
      * cbn [fst]. intros H (op & message & ->). discriminate H.
    + intros err. unfold PutRequest.
      destruct (NewBlobClient (container c) path) as [bc | e].
      * intros H (op & message & ->).
        apply signed_link_error in H. destruct H as (m & e & H). discriminate H.
      * cbn [fst]. intros H (op & message & ->). discriminate H.
Qed.

(** [GetRequest] looks the object up first.  When [StatObject] fails, it
    returns that error and the world [StatObject] left: the clock is not
    read and no token is made.  A link is returned only for an object that
    [StatObject] found: its method is [GET], it has no headers, it
    expires the given duration after the clock's reading, and its URI is the
    blob's URL signed with a read-only token for that interval. *)
Theorem GetRequest_checks_existence c (path : string) (duration : Duration) w :
  (forall err w1, StatObject c path w = (inr err, w1) ->
                  GetRequest c path duration w = (inr err, w1))
  /\ (forall link w',
        GetRequest c path duration w = (inl link, w') ->
        exists info w1 bc qParams,
          StatObject c path w = (inl info, w1)
          /\ w' = snd (time_Now w1)
          /\ NewBlobClient (container c) path = inl bc
          /\ GetSASToken bc
               {| Read := true; Create := false; Write := false; Delete := false |}
               (time_UTC (fst (time_Now w1)))
               (time_Add (time_UTC (fst (time_Now w1))) duration)
             = inl qParams
          /\ buildSignedURL (blob_URL bc) qParams = inl (Uri link)
          /\ Expire link = time_Add (time_UTC (fst (time_Now w1))) duration
          /\ Method link = MethodGet
          /\ Header link = None).
Proof.
  split.
  - intros err w1 H. unfold GetRequest. rewrite H. reflexivity.
  - intros link w'. unfold GetRequest.
    destruct (StatObject c path w) as [[info | e] w1]; [ | discriminate ].
    destruct (NewBlobClient (container c) path) as [bc | e]; [ | discriminate ].
    intros H.
    pose proof (signed_link_world OpGetRequest bc
                  {| Read := true; Create := false; Write := false; Delete := false |}
                  duration MethodGet None w1) as Hw.
    rewrite H in Hw. cbn [snd] in Hw.
    assert (Hf : fst (signed_link OpGetRequest bc
                        {| Read := true; Create := false; Write := false;
                           Delete := false |} duration MethodGet None w1)
                 = inl link) by (rewrite H; reflexivity).
    apply signed_link_ok in Hf. cbv zeta in Hf.
    destruct Hf as (qParams & Ht & Hu & He & Hm & Hh).
    exists info, w1, bc, qParams. repeat split; assumption.
Qed.

(** [DeleteRequest] and [PutRequest] do not look the object up: the only
    state they touch is the clock, read once, and not at all when the blob
    client cannot be made.  Their links carry the method of the request
    ([DELETE], [PUT]), the expiry, and a token with the delete
    permission only, or the create and write permissions only. *)
Theorem presigned_requests c (path : string) (duration : Duration) w :
  (snd (DeleteRequest c path duration w)
   = match NewBlobClient (container c) path with
     | inl _ => snd (time_Now w)
     | inr _ => w
     end)
  /\ (snd (PutRequest c path duration w)
      = match NewBlobClient (container c) path with
        | inl _ => snd (time_Now w)
        | inr _ => w
        end)
  /\ (forall link,
        fst (DeleteRequest c path duration w) = inl link ->
        exists bc qParams,
          NewBlobClient (container c) path = inl bc
          /\ GetSASToken bc
               {| Read := false; Create := false; Write := false; Delete := true |}
               (time_UTC (fst (time_Now w)))
               (time_Add (time_UTC (fst (time_Now w))) duration)
             = inl qParams
          /\ buildSignedURL (blob_URL bc) qParams = inl (Uri link)
          /\ Expire link = time_Add (time_UTC (fst (time_Now w))) duration
          /\ Method link = MethodDelete
          /\ Header link = None)
  /\ (forall link,
        fst (PutRequest c path duration w) = inl link ->
        exists bc qParams,
          NewBlobClient (container c) path = inl bc
          /\ GetSASToken bc
               {| Read := false; Create := true; Write := true; Delete := false |}
               (time_UTC (fst (time_Now w)))
               (time_Add (time_UTC (fst (time_Now w))) duration)
             = inl qParams
          /\ buildSignedURL (blob_URL bc) qParams = inl (Uri link)
          /\ Expire link = time_Add (time_UTC (fst (time_Now w))) duration
          /\ Method link = MethodPut
          /\ Header link = Some (put_headers c path)).
Proof.
  unfold DeleteRequest, PutRequest.
  destruct (NewBlobClient (container c) path) as [bc | e].
  - rewrite !signed_link_world.
    split; [ reflexivity | ]. split; [ reflexivity | ]. split.
    + intros link H. apply signed_link_ok in H. cbv zeta in H.
      destruct H as (qParams & H). exists bc, qParams. split; [ reflexivity | exact H ].
    + intros link H. apply signed_link_ok in H. cbv zeta in H.
      destruct H as (qParams & H). exists bc, qParams. split; [ reflexivity | exact H ].
  - cbn [fst snd]. repeat split; discriminate.
Qed.

Lemma list_ascii_of_string_app (s1 s2 : string) :
  list_ascii_of_string (s1 ++ s2)
  = (list_ascii_of_string s1 ++ list_ascii_of_string s2)%list.
Proof.
  induction s1 as [ | ch s1 IH ]; simpl; [ reflexivity | ]. f_equal. exact IH.
Qed.

Lemma strip_slashes_element (l rest : list ascii) :
  l <> [] -> Forall (fun ch => ch <> slash) l ->
  strip_slashes (rev l ++ rest) = (rev l ++ rest)%list.
Proof.
  intros Hne Hl.
  assert (Hr : Forall (fun ch => ch <> slash) (rev l)).
  { apply List.Forall_rev. exact Hl. }
  destruct (rev l) as [ | ch l' ] eqn:E.
  - exfalso. apply Hne. apply (f_equal (@rev ascii)) in E.
    rewrite rev_involutive in E. exact E.
  - cbn. inversion Hr as [ | ? ? Hch _ ]; subst.
    destruct (Ascii.eqb_spec ch slash) as [-> | _]; [ contradiction | reflexivity ].
Qed.

Lemma until_slash_element (l rest : list ascii) :
  Forall (fun ch => ch <> slash) l ->
  until_slash (l ++ slash :: rest) = l.
Proof.
  induction 1 as [ | ch l Hch _ IH ]; cbn.
  - reflexivity.
  - destruct (Ascii.eqb_spec ch slash) as [-> | _]; [ contradiction | ].
    rewrite IH. reflexivity.
Qed.

Lemma until_slash_all (l : list ascii) :
  Forall (fun ch => ch <> slash) l -> until_slash l = l.
Proof.
  induction 1 as [ | ch l Hch _ IH ]; cbn; [ reflexivity | ].
  destruct (Ascii.eqb_spec ch slash) as [-> | _]; [ contradiction | ].
  rewrite IH. reflexivity.
Qed.

Lemma until_slash_no_slash (l : list ascii) :
  Forall (fun ch => ch <> slash) (until_slash l).
Proof.
  induction l as [ | ch l IH ]; cbn; [ constructor | ].
  destruct (Ascii.eqb_spec ch slash) as [-> | Hne]; constructor; assumption.
Qed.

Lemma string_length_list (s : string) :
  String.length s = List.length (list_ascii_of_string s).
Proof. induction s as [ | ch s IH ]; cbn; congruence. Qed.

(** [path.Base] on a path that ends in a path element, with or without
    directories before it, is that element. *)
Lemma path_Base_element (dir name : string) :
  path_element name ->
  path_Base (dir ++ "/" ++ name) = name /\ path_Base name = name.
Proof.
  intros [Hne Hns].
  assert (Hl : list_ascii_of_string name <> []).
  { destruct name; [ contradiction | discriminate ]. }
  assert (Hrev : Forall (fun ch => ch <> slash) (rev (list_ascii_of_string name))).
  { apply List.Forall_rev. exact Hns. }
  assert (Hlen : Nat.eqb (List.length (list_ascii_of_string name)) 0 = false).
  { destruct (list_ascii_of_string name); [ contradiction | reflexivity ]. }
  split.
  - unfold path_Base.
    assert (Hp : Nat.eqb (String.length (dir ++ "/" ++ name)) 0 = false).
    { rewrite string_length_list, !list_ascii_of_string_app, !length_app.
      cbn. apply Nat.eqb_neq. lia. }
    rewrite Hp. rewrite !list_ascii_of_string_app.
    change (list_ascii_of_string "/") with [slash].
    rewrite !rev_app_distr. cbn [rev app].
    rewrite <- !app_assoc. cbn [app].
    rewrite (strip_slashes_element _ _ Hl Hns).
    rewrite (until_slash_element _ _ Hrev).
    rewrite rev_involutive, Hlen.
    apply string_of_list_ascii_of_string.
  - unfold path_Base.
    assert (Hp : Nat.eqb (String.length name) 0 = false)
      by (rewrite string_length_list; exact Hlen).
    rewrite Hp.
    rewrite <- (app_nil_r (rev (list_ascii_of_string name))).
    rewrite (strip_slashes_element _ [] Hl Hns), app_nil_r.
    rewrite (until_slash_all _ Hrev).
    rewrite rev_involutive, Hlen.
    apply string_of_list_ascii_of_string.
Qed.

(** The headers of a pre-signed upload are the blob type, always
    ["BlockBlob"], and, when the client has a file suffix, a content
    disposition; there is no other header.  [PutObject] uploads with the
    client's content type and buffer size and with the same content
    disposition, and returns the upload's error wrapped as an operation
    error. *)
Theorem upload_headers c (objectPath : string) (src : Reader) w (bc : BlockBlobClient) :
  NewBlockBlobClient (container c) objectPath = inl bc ->
  let disposition :=
    (fun suffix => attachment (path_Base objectPath ++ suffix)) <$> fileSuffix c in
  put_headers c objectPath !! headerBlobType = Some blobTypeBlock
  /\ put_headers c objectPath !! headerMSContentDisposition = disposition
  /\ (forall k, k <> headerBlobType -> k <> headerMSContentDisposition ->
                put_headers c objectPath !! k = None)
  /\ exists opts,
       BlobContentDisposition opts = disposition
       /\ BlobContentType opts = contentType c
       /\ BufferSize opts = bufferSize c
       /\ fst (PutObject c objectPath src w)
          = (fun e => OpError OpPutObject "failed to upload object to blob" (External e))
              <$> fst (UploadStream bc src opts w)
       /\ snd (PutObject c objectPath src w) = snd (UploadStream bc src opts w).
Proof.
  intros Hbc disposition. subst disposition.
  unfold put_headers, PutObject. rewrite Hbc.
  destruct (fileSuffix c) as [suffix | ]; cbn [fmap option_fmap option_map].
  - split; [ reflexivity | ]. split; [ apply lookup_insert_eq | ].
    split.
    + intros k H1 H2. rewrite lookup_insert_ne by congruence.
      apply lookup_singleton_ne. congruence.
    + exists {| BlobContentType := contentType c;
                BlobContentDisposition :=
                  Some (attachment (path_Base objectPath ++ suffix));
                BufferSize := bufferSize c |}.
      split; [ reflexivity | ]. split; [ reflexivity | ].
      split; [ reflexivity | ].
      destruct (UploadStream _ _ _ _) as [[e | ] w']; split; reflexivity.
  - split; [ apply lookup_singleton_eq | ].
    split; [ reflexivity | ].
    split.
    + intros k H1 H2. apply lookup_singleton_ne. congruence.
    + exists {| BlobContentType := contentType c;
                BlobContentDisposition := None;
                BufferSize := bufferSize c |}.
      split; [ reflexivity | ]. split; [ reflexivity | ].
      split; [ reflexivity | ].
      destruct (UploadStream _ _ _ _) as [[e | ] w']; split; reflexivity.
Qed.

(** With a file suffix configured, the content disposition of an upload
    names the last element of the object path followed by the suffix,
    whatever directories come before it. *)
Theorem attachment_filename c (dir name suffix : string) :
  fileSuffix c = Some suffix ->
  path_element name ->
  put_headers c (dir ++ "/" ++ name) !! headerMSContentDisposition
  = Some (attachment (name ++ suffix))
  /\ put_headers c name !! headerMSContentDisposition
     = Some (attachment (name ++ suffix)).
Proof.
  intros Hs Hname. unfold put_headers. rewrite Hs.
  destruct (path_Base_element dir name Hname) as [-> ->].
  split; apply lookup_insert_eq.
Qed.

End ClientProperties.

(** ** The client on an in-memory service *)

Example DeleteObject_missing :
  fst (azblob.DeleteObject example_client "tenant/none" example_world)
  = Some (azblob.OpError azblob.OpDeleteObject "failed to delete object"
            azblob.ErrObjectNotFound).
Proof. vm_compute. reflexivity. Qed.

Example PutRequest_example :
  exists link,
    fst (azblob.PutRequest example_client "tenant/new" 3600 example_world) = inl link
    /\ azblob.Method link = "PUT"
    /\ azblob.Expire link = 1609462800
    /\ azblob.Header link
       = Some {[ "x-ms-blob-type" := "BlockBlob";
                 "x-ms-blob-content-disposition"
                 := azblob.attachment "new.mender" ]}.
Proof. eexists. split; [ vm_compute; reflexivity | ]. repeat split. Qed.

Lemma not_found_reports_witness :
  exists err,
    fst (azblob.DeleteObject example_client "tenant/none" example_world) = Some err
    /\ reports_not_found err.
Proof.
  apply (proj2 (proj1 (not_found_reports example_client "tenant/none" 0 3600
                         example_world))).
  exists "tenant/none", "BlobNotFound". repeat split.
Defined.

Lemma client_errors_witness :
  op_error (E := string) [azblob.OpStatObject; azblob.OpGetRequest]
    (azblob.OpError azblob.OpStatObject "failed to retrieve object properties"
       azblob.ErrObjectNotFound).
Proof.
  apply (proj1 (proj2 (proj2 (proj2 (proj2
           (client_errors example_client "tenant/none" 0 3600 example_world)))))).
  vm_compute. reflexivity.
Defined.

Lemma GetRequest_checks_existence_witness :
  azblob.GetRequest example_client "tenant/none" 3600 example_world
  = (inr (azblob.OpError azblob.OpStatObject "failed to retrieve object properties"
            azblob.ErrObjectNotFound),
     example_world).
Proof.
  apply (proj1 (GetRequest_checks_existence example_client "tenant/none" 3600
                  example_world)).
  vm_compute. reflexivity.
Defined.

Lemma presigned_requests_witness :
  exists link,
    fst (azblob.DeleteRequest example_client "tenant/none" 3600 example_world)
    = inl link
    /\ azblob.Method link = "DELETE"
    /\ azblob.Expire link = 1609462800.
Proof.
  eexists. split; [ reflexivity | ].
  destruct (proj1 (proj2 (proj2 (presigned_requests example_client "tenant/none" 3600
                                   example_world))) _ eq_refl)
    as (bc & qParams & _ & _ & _ & He & Hm & _).
  split; [ exact Hm | exact He ].
Defined.

Lemma upload_headers_witness :
  azblob.put_headers example_client "tenant/abc" !! "x-ms-blob-type"
  = Some "BlockBlob".
Proof.
  apply (upload_headers example_client "tenant/abc" 2048 example_world "tenant/abc").
  reflexivity.
Defined.

Lemma attachment_filename_witness :
  path_element "abc"
  /\ azblob.put_headers example_client "tenant/abc" !! "x-ms-blob-content-disposition"
     = Some (azblob.attachment "abc.mender").
Proof.
  assert (He : path_element "abc").
  { split; [ discriminate | ].
    cbn. repeat (apply List.Forall_cons; [ discriminate | ]). apply List.Forall_nil. }
  split; [ exact He | ].
  exact (proj1 (attachment_filename example_client "tenant" "abc" ".mender" eq_refl He)).
Defined.

(** ** Finished without progress *)

(** With non-negative counters and additions that do not wrap, a deployment
    that is finished by its counters alone while no device shows progress
    has as many decommissioned devices as [MaxDevices]: that is the only way
    to be finished and not [IsNotPending]. *)
Theorem finished_without_progress {Time : Type} (d : Deployment Time) :
  Finished d = None ->
  (forall s, 0 <= stat (Stats d) s) ->
  no_overflow d ->
  IsFinished d = true ->
  IsNotPending d = false ->
  0 < MaxDevices d
  /\ MaxDevices d <= stat (Stats d) DeviceDeploymentStatusDecommissioned.
Proof.
  intros Hfin Hnn Hno Hf Hnp.
  apply IsFinished_true in Hf. destruct Hf as [Hf | [Hpos Hsum]]; [ contradiction | ].
  split; [ exact Hpos | ].
  rewrite (terminal_sum_exact d Hno) in Hsum.
  assert (Hz : forall s, List.In s progress_statuses -> stat (Stats d) s = 0).
  { intros s Hs. pose proof (proj1 (IsNotPending_false d) Hnp s Hs).
    specialize (Hnn s). lia. }
  unfold terminal_total in Hsum.
  rewrite (Hz DeviceDeploymentStatusAlreadyInst) in Hsum
    by (unfold progress_statuses; simpl; tauto).
  rewrite (Hz DeviceDeploymentStatusSuccess) in Hsum
    by (unfold progress_statuses; simpl; tauto).
  rewrite (Hz DeviceDeploymentStatusFailure) in Hsum
    by (unfold progress_statuses; simpl; tauto).
  rewrite (Hz DeviceDeploymentStatusNoArtifact) in Hsum
    by (unfold progress_statuses; simpl; tauto).
  rewrite (Hz DeviceDeploymentStatusAborted) in Hsum
    by (unfold progress_statuses; simpl; tauto).
  lia.
Qed.

Lemma finished_without_progress_witness :
  0 < MaxDevices (scenario {[ DeviceDeploymentStatusDecommissioned := 2 ]} 2 None)
  /\ MaxDevices (scenario {[ DeviceDeploymentStatusDecommissioned := 2 ]} 2 None)
     <= stat (Stats (scenario {[ DeviceDeploymentStatusDecommissioned := 2 ]} 2 None))
          DeviceDeploymentStatusDecommissioned.
Proof.
  apply (finished_without_progress
           (scenario {[ DeviceDeploymentStatusDecommissioned := 2 ]} 2 None)).
  - reflexivity.
  - intros s. destruct s; vm_compute; discriminate.
  - vm_compute. intuition discriminate.
  - vm_compute. reflexivity.
  - vm_compute. reflexivity.
Defined.
